(** * DNS sync handler: input reconciliation and dispatch

    A shallow embedding of [.github/scripts/dns-sync.js] (class
    [DNSSyncHandler]) and [.github/scripts/utils/file-utils.js] (class
    [FileUtils]), with the properties of the specification stated over it.

    Conventions of the embedding.
    - JavaScript strings are [string]; every pattern the code matches
      ([whois/], [.json], [.], [/]) is ASCII, so working on bytes instead of
      UTF-16 code units changes nothing.
    - JavaScript values are [jsval]; an object is its list of own enumerable
      properties in insertion order, an array is an object of class
      [ArrayObject] whose properties are its indices.
    - A thrown exception is an [exn]: a computation that may throw returns
      [exn + A]; asynchronous code is awaited at every step in the source, so
      it is sequential code in the monad [M].
    - [process.env], [process.cwd()], the file system, the clock and the DNS
      record manager are the fields of a [World]; what a run does to the
      outside (file-system calls, requests to the DNS manager, result-file
      writes) is logged in order in a list of [event].
    - [logger.*] calls only print and are left out. *)

From Stdlib Require Import String Ascii List ZArith Lia Bool Arith.
From stdpp Require Import base gmap strings.
Import ListNotations.
Open Scope string_scope.
Open Scope list_scope.

(** ** JavaScript strings *)

Module JsString.

(** [s.startsWith(p)] *)
Fixpoint startsWith (p s : string) : bool :=
  match p, s with
  | EmptyString, _ => true
  | String a p', String b s' => Ascii.eqb a b && startsWith p' s'
  | String _ _, EmptyString => false
  end.

Fixpoint drop (n : nat) (s : string) : string :=
  match n, s with
  | O, _ => s
  | S n', String _ s' => drop n' s'
  | S _, EmptyString => EmptyString
  end.

Fixpoint take (n : nat) (s : string) : string :=
  match n, s with
  | O, _ => EmptyString
  | S n', String c s' => String c (take n' s')
  | S _, EmptyString => EmptyString
  end.

(** [s.endsWith(p)] *)
Definition endsWith (p s : string) : bool :=
  (String.length p <=? String.length s)%nat
  && String.eqb (drop (String.length s - String.length p) s) p.

(** [s.replace(/^p/, '')] for a literal [p] *)
Definition strip_prefix (p s : string) : string :=
  if startsWith p s then drop (String.length p) s else s.

(** [s.replace(/p$/, '')] for a literal [p] *)
Definition strip_suffix (p s : string) : string :=
  if endsWith p s then take (String.length s - String.length p) s else s.

(** [s.replace(pat, rep)] for a string pattern: only the first occurrence
    is replaced. *)
Fixpoint replace (pat rep s : string) {struct s} : string :=
  if startsWith pat s then rep +:+ drop (String.length pat) s
  else match s with
       | EmptyString => EmptyString
       | String c s' => String c (replace pat rep s')
       end.

(** [s.split(sep)] for a one-character separator: never the empty list. *)
Fixpoint split (sep : ascii) (s : string) : list string :=
  match s with
  | EmptyString => [EmptyString]
  | String c s' =>
      if Ascii.eqb c sep then EmptyString :: split sep s'
      else match split sep s' with
           | [] => [String c EmptyString]
           | p :: ps => String c p :: ps
           end
  end.

(** [l.join(sep)] *)
Fixpoint join (sep : string) (l : list string) : string :=
  match l with
  | [] => EmptyString
  | [x] => x
  | x :: xs => x +:+ sep +:+ join sep xs
  end.

(** [s] contains the character [c] *)
Fixpoint has_char (c : ascii) (s : string) : bool :=
  match s with
  | EmptyString => false
  | String a s' => Ascii.eqb a c || has_char c s'
  end.

(** [sub] occurs in [s] *)
Definition occurs_in (sub s : string) : Prop :=
  exists pre post, s = pre +:+ sub +:+ post.

End JsString.
Import JsString.

(** ** JavaScript values and exceptions *)

Inductive obj_class := PlainObject | ArrayObject.

#[warnings="-register-all"]
Inductive jsval :=
| VUndefined
| VNull
| VBool (b : bool)
| VNum (n : Z)
| VStr (s : string)
| VObj (c : obj_class) (props : list (string * jsval))
| VBuiltin (name : string).   (* a built-in function or object, by name *)

Inductive exn_class := ClsError | ClsSyntaxError | ClsTypeError.

(** A thrown [Error]: its class (for [instanceof]), its [code] (set by the
    file system on I/O errors) and its [message]. *)
Record exn := { exn_cls : exn_class; exn_code : option string; message : string }.

(** [new Error(msg)] *)
Definition mkError (msg : string) : exn :=
  {| exn_cls := ClsError; exn_code := None; message := msg |}.

Definition mkTypeError (msg : string) : exn :=
  {| exn_cls := ClsTypeError; exn_code := None; message := msg |}.

Definition mkSyntaxError (msg : string) : exn :=
  {| exn_cls := ClsSyntaxError; exn_code := None; message := msg |}.

(** JavaScript truthiness ([!v] is [negb (truthy v)]). *)
Definition truthy (v : jsval) : bool :=
  match v with
  | VUndefined | VNull => false
  | VBool b => b
  | VNum n => negb (n =? 0)%Z
  | VStr s => negb (String.eqb s "")
  | VObj _ _ | VBuiltin _ => true
  end.

(** [typeof v === 'string'] *)
Definition is_string (v : jsval) : bool :=
  match v with VStr _ => true | _ => false end.

(** Truthiness of [process.env.X]: a string or [undefined]. *)
Definition env_truthy (o : option string) : bool :=
  match o with Some s => negb (String.eqb s "") | None => false end.

(** [process.env.X || dflt] *)
Definition env_or (o : option string) (dflt : string) : string :=
  match o with
  | Some s => if String.eqb s "" then dflt else s
  | None => dflt
  end.

(** [process.env.X] as a value. *)
Definition env_val (o : option string) : jsval :=
  match o with Some s => VStr s | None => VUndefined end.

(** Own-property lookup. *)
Fixpoint own_prop (k : string) (props : list (string * jsval)) : option jsval :=
  match props with
  | [] => None
  | (k', v) :: rest => if String.eqb k k' then Some v else own_prop k rest
  end.

(** [o.k = v] on the property list of an object: an existing property keeps
    its place, a new one goes last. *)
Fixpoint set_prop (k : string) (v : jsval) (props : list (string * jsval))
  : list (string * jsval) :=
  match props with
  | [] => [(k, v)]
  | (k', v') :: rest =>
      if String.eqb k k' then (k', v) :: rest else (k', v') :: set_prop k v rest
  end.

(** [{...target, ...source}] on property lists. *)
Definition spread (target source : list (string * jsval)) : list (string * jsval) :=
  fold_left (fun acc kv => set_prop (fst kv) (snd kv) acc) source target.

(** The own enumerable properties [{...v}] copies: none for [null],
    [undefined], a number or a boolean. The indexed characters of a bare string
    are not modelled: the DNS manager answers with a result object. *)
Definition enumerable_props (v : jsval) : list (string * jsval) :=
  match v with
  | VObj _ props => props
  | _ => []
  end.

(** The properties every plain object inherits from [Object.prototype]. *)
Definition Object_prototype : list (string * jsval) :=
  [ ("constructor", VBuiltin "Object");
    ("__defineGetter__", VBuiltin "Object.prototype.__defineGetter__");
    ("__defineSetter__", VBuiltin "Object.prototype.__defineSetter__");
    ("hasOwnProperty", VBuiltin "Object.prototype.hasOwnProperty");
    ("__lookupGetter__", VBuiltin "Object.prototype.__lookupGetter__");
    ("__lookupSetter__", VBuiltin "Object.prototype.__lookupSetter__");
    ("isPrototypeOf", VBuiltin "Object.prototype.isPrototypeOf");
    ("propertyIsEnumerable", VBuiltin "Object.prototype.propertyIsEnumerable");
    ("toString", VBuiltin "Object.prototype.toString");
    ("valueOf", VBuiltin "Object.prototype.valueOf");
    ("__proto__", VBuiltin "Object.prototype");
    ("toLocaleString", VBuiltin "Object.prototype.toLocaleString") ].

(** [o[k]] on an object literal: own properties first, then the prototype. *)
Definition literal_get (props : list (string * jsval)) (k : string) : jsval :=
  match own_prop k props with
  | Some v => v
  | None =>
      match own_prop k Object_prototype with
      | Some v => v
      | None => VUndefined
      end
  end.

(** [v.k] for a key [k] that no built-in prototype defines ([domain], [sld]):
    reading a property of [null] or [undefined] throws a [TypeError]. *)
Definition get_field (v : jsval) (k : string) : exn + jsval :=
  match v with
  | VUndefined => inl (mkTypeError ("Cannot read properties of undefined (reading '" +:+ k +:+ "')"))
  | VNull => inl (mkTypeError ("Cannot read properties of null (reading '" +:+ k +:+ "')"))
  | VObj _ props => inr (match own_prop k props with Some x => x | None => VUndefined end)
  | _ => inr VUndefined
  end.

(** [v.k = x] in strict mode (a class body is strict code): on an object the
    property is set, on [null], [undefined] or a primitive it throws. The
    values assigned to are parsed JSON, never a built-in. *)
Definition set_field (v : jsval) (k : string) (x : jsval) : exn + jsval :=
  match v with
  | VObj c props => inr (VObj c (set_prop k x props))
  | VUndefined | VNull => inl (mkTypeError ("Cannot set properties of null or undefined (setting '" +:+ k +:+ "')"))
  | _ => inl (mkTypeError ("Cannot create property '" +:+ k +:+ "' on a primitive"))
  end.

(** ** Domain parser ([DNSSyncHandler.parseDomain]) *)

Record DomainReference := { domain : string; sld : string }.

(** The cleaned form of the input: the [whois/] prefix, then the [.json]
    suffix, removed when present. *)
Definition cleanDomain (domainString : string) : string :=
  strip_suffix ".json" (strip_prefix "whois/" domainString).

Definition parseDomain (domainString : jsval) : exn + DomainReference :=
  if negb (truthy domainString) || negb (is_string domainString) then
    inl (mkError "Domain string is required and must be a string")
  else
    match domainString with
    | VStr s =>
        let parts := split "."%char (cleanDomain s) in
        if (length parts <? 2)%nat then
          inl (mkError ("Invalid domain format: " +:+ s +:+ ". Expected format: domain.sld"))
        else if (length parts =? 2)%nat then
          inr {| domain := nth 0 parts ""; sld := nth 1 parts "" |}
        else if (length parts =? 3)%nat then
          inr {| domain := nth 0 parts "";
                 sld := nth 1 parts "" +:+ "." +:+ nth 2 parts "" |}
        else
          inr {| domain := nth 0 parts ""; sld := join "." (skipn 1 parts) |}
    | _ => inl (mkError "Domain string is required and must be a string")
    end.

(** The two failures of [parseDomain]; the specification names both
    [InvalidDomainFormat]. *)
Definition InvalidDomainFormat (e : exn) : Prop :=
  e = mkError "Domain string is required and must be a string"
  \/ exists s, e = mkError ("Invalid domain format: " +:+ s +:+ ". Expected format: domain.sld").

(** ** Operation mapper ([DNSSyncHandler.mapOperationType]) *)

Definition operationMap : list (string * jsval) :=
  [ ("add", VStr "registration");
    ("update", VStr "update");
    ("delete", VStr "remove");
    ("registration", VStr "registration");
    ("remove", VStr "remove") ].

(** [operationMap[operation] || operation] *)
Definition mapOperationType (operation : string) : jsval :=
  let mapped := literal_get operationMap operation in
  if truthy mapped then mapped else VStr operation.

(** ** POSIX paths (Node's [path.join] and [path.resolve]) *)

Module Path.

(** [normalizeString]: drop empty and [.] segments, resolve [..]. [acc] is
    the stack of segments kept so far, last one first. *)
Fixpoint normalize_segments (allowAboveRoot : bool) (acc segs : list string)
  : list string :=
  match segs with
  | [] => rev acc
  | seg :: rest =>
      if String.eqb seg "" || String.eqb seg "." then
        normalize_segments allowAboveRoot acc rest
      else if String.eqb seg ".." then
        match acc with
        | top :: acc' =>
            if String.eqb top ".." then
              normalize_segments allowAboveRoot
                (if allowAboveRoot then ".." :: acc else acc) rest
            else normalize_segments allowAboveRoot acc' rest
        | [] =>
            normalize_segments allowAboveRoot
              (if allowAboveRoot then [".."] else []) rest
        end
      else normalize_segments allowAboveRoot (seg :: acc) rest
  end.

Definition normalizeString (p : string) (allowAboveRoot : bool) : string :=
  JsString.join "/" (normalize_segments allowAboveRoot [] (split "/"%char p)).

Definition isAbsolute (p : string) : bool := startsWith "/" p.

Definition normalize (p : string) : string :=
  if String.eqb p "" then "."
  else
    let absolute := isAbsolute p in
    let trailingSeparator := endsWith "/" p in
    let q := normalizeString p (negb absolute) in
    if String.eqb q "" then
      (if absolute then "/" else if trailingSeparator then "./" else ".")
    else
      let q' := if trailingSeparator then q +:+ "/" else q in
      if absolute then "/" +:+ q' else q'.

(** [path.join(...args)] *)
Definition join (args : list string) : string :=
  match List.filter (fun a => negb (String.eqb a "")) args with
  | [] => "."
  | parts => normalize (JsString.join "/" parts)
  end.

(** The right-to-left loop of [path.resolve]: stop at the first absolute
    argument. *)
Fixpoint resolve_loop (args_rev : list string) (resolvedPath : string)
  : string * bool :=
  match args_rev with
  | [] => (resolvedPath, false)
  | p :: rest =>
      if String.eqb p "" then resolve_loop rest resolvedPath
      else
        let resolvedPath' := p +:+ "/" +:+ resolvedPath in
        if isAbsolute p then (resolvedPath', true)
        else resolve_loop rest resolvedPath'
  end.

(** [path.resolve(...args)] in a process whose working directory is
    [cwd]. *)
Definition resolve (cwd : string) (args : list string) : string :=
  let '(resolvedPath, resolvedAbsolute) := resolve_loop (rev (cwd :: args)) "" in
  let q := normalizeString resolvedPath (negb resolvedAbsolute) in
  if resolvedAbsolute then "/" +:+ q
  else if String.eqb q "" then "." else q.

End Path.

(** ** The world a run sees, and what it does to it *)

(** The text of a file, as [JSON.parse] sees it: the JSON text of a value
    ([null], a boolean, a number, a string, an array or an object, never
    [undefined] or a built-in), or text that is not JSON. *)
Inductive text :=
| JsonText (v : jsval)
| BadText (raw : string).

Definition JSON_parse (t : text) : exn + jsval :=
  match t with
  | JsonText v => inr v
  | BadText raw => inl (mkSyntaxError "Unexpected token in JSON")
  end.

(** An entry of the change-set of a merged pull request. *)
Record ChangedFile := { filename : string; status : string }.

Inductive event :=
| EvAccess (path : string)                       (* fs.access(path) *)
| EvReadFile (path : string)                     (* fs.readFile(path) *)
| EvManualSync (title : string) (whoisData options : jsval)
                                                 (* dnsManager.handleManualSync *)
| EvPRMerge (title : string) (data : jsval)      (* dnsManager.handlePRMerge *)
| EvWriteFile (path : string) (data : jsval)     (* fs.writeFile, done *)
| EvWriteFailed (path : string) (data : jsval).  (* fs.writeFile, rejected *)

Record World := {
  (** [process.env] *)
  env : gmap string string;
  (** [process.cwd()] *)
  cwd : string;
  (** [__dirname] of file-utils.js *)
  utils_dirname : string;
  (** [fs.access(path)]: [None] when it resolves *)
  fs_access : string -> option exn;
  (** [fs.readFile(path, 'utf8')] *)
  fs_readFile : string -> exn + text;
  (** [pr-files.json] in the working directory: [None] when
      [fs.existsSync] is false, an exception when reading or parsing it
      throws, else the array of changed files it holds *)
  pr_files : option (exn + list ChangedFile);
  (** [fs.writeFile(path, data)] after the given events: [None] when the
      write is done *)
  fs_writeFile : list event -> string -> jsval -> option exn;
  (** [new Date().toISOString()], by the number of earlier readings *)
  now : nat -> string;
  (** the DNS record manager *)
  dns_handleManualSync : string -> jsval -> jsval -> exn + jsval;
  dns_handlePRMerge : string -> jsval -> exn + jsval
}.

(** The state a run threads: the events so far, oldest first, and how often
    the clock was read. *)
Record State := { events : list event; clock_reads : nat }.

Definition initial : State := {| events := []; clock_reads := 0 |}.

Definition log (e : event) (st : State) : State :=
  {| events := events st ++ [e]; clock_reads := clock_reads st |}.

(** What an event leaves behind: the record a finished write persisted, the
    request the DNS record manager received. *)
Definition written (e : event) : option jsval :=
  match e with EvWriteFile _ data => Some data | _ => None end.

Definition request (e : event) : option event :=
  match e with
  | EvManualSync _ _ _ | EvPRMerge _ _ => Some e
  | _ => None
  end.

(** The result records persisted so far. *)
Definition persisted (evs : list event) : list jsval := omap written evs.

(** The requests sent to the DNS record manager so far. *)
Definition dispatched (evs : list event) : list event := omap request evs.

(** Code that may throw and acts on the world. *)
Definition M (A : Type) : Type := State -> (exn + A) * State.

Definition ret {A} (a : A) : M A := fun st => (inr a, st).

Definition throw {A} (e : exn) : M A := fun st => (inl e, st).

Definition bind {A B} (m : M A) (k : A -> M B) : M B :=
  fun st =>
    match m st with
    | (inr a, st') => k a st'
    | (inl e, st') => (inl e, st')
    end.

(** [try { m } catch (error) { handler error }] *)
Definition try_catch {A} (m : M A) (handler : exn -> M A) : M A :=
  fun st =>
    match m st with
    | (inr a, st') => (inr a, st')
    | (inl e, st') => handler e st'
    end.

(** A pure step that may throw. *)
Definition lift {A} (r : exn + A) : M A := fun st => (r, st).

Notation "x <- m ;; k" := (bind m (fun x => k))
  (at level 100, m at next level, right associativity).
Notation "m ;;; k" := (bind m (fun _ => k))
  (at level 100, right associativity).

(** ** Change-set extractor ([FileUtils.extractWhoisFiles],
       [FileUtils.extractNonRemovedWhoisFiles]) *)

Definition is_whois_file (file : ChangedFile) : bool :=
  startsWith "whois/" (filename file) && endsWith ".json" (filename file).

Definition extractWhoisFiles (files : list ChangedFile) : exn + ChangedFile :=
  let whoisFiles := List.filter is_whois_file files in
  if (length whoisFiles =? 0)%nat then
    inl (mkError "No whois files found in PR changes")
  else if (1 <? length whoisFiles)%nat then
    inl (mkError ("Multiple whois files found in PR changes: "
                  +:+ join ", " (map filename whoisFiles)))
  else
    match whoisFiles with
    | file :: _ => inr file
    | [] => inl (mkTypeError "no element at index 0")
    end.

Definition is_non_removed_whois_file (file : ChangedFile) : bool :=
  startsWith "whois/" (filename file) && endsWith ".json" (filename file)
  && negb (String.eqb (status file) "removed").

Definition extractNonRemovedWhoisFiles (files : list ChangedFile) : exn + ChangedFile :=
  let whoisFiles := List.filter is_non_removed_whois_file files in
  if (length whoisFiles =? 0)%nat then
    inl (mkError "No non-removed whois files found in PR changes")
  else if (1 <? length whoisFiles)%nat then
    inl (mkError ("Multiple non-removed whois files found in PR changes: "
                  +:+ join ", " (map filename whoisFiles)))
  else
    match whoisFiles with
    | file :: _ => inr file
    | [] => inl (mkTypeError "no element at index 0")
    end.

Section Handler.

Variable w : World.

(** *** The calls into the world *)

Definition access (path : string) : M unit :=
  fun st =>
    (match fs_access w path with None => inr tt | Some e => inl e end,
     log (EvAccess path) st).

Definition readFile (path : string) : M text :=
  fun st => (fs_readFile w path, log (EvReadFile path) st).

Definition writeFile (path : string) (data : jsval) : M unit :=
  fun st =>
    match fs_writeFile w (events st) path data with
    | None => (inr tt, log (EvWriteFile path data) st)
    | Some e => (inl e, log (EvWriteFailed path data) st)
    end.

Definition toISOString_now : M string :=
  fun st =>
    (inr (now w (clock_reads st)),
     {| events := events st; clock_reads := S (clock_reads st) |}).

Definition dnsManager_handleManualSync (title : string) (whoisData options : jsval)
  : M jsval :=
  fun st =>
    (dns_handleManualSync w title whoisData options,
     log (EvManualSync title whoisData options) st).

Definition dnsManager_handlePRMerge (title : string) (data : jsval) : M jsval :=
  fun st => (dns_handlePRMerge w title data, log (EvPRMerge title data) st).

(** *** Descriptor loader ([FileUtils.readWhoisFile]) *)

Definition workspaceRoot : string := Path.resolve (cwd w) [utils_dirname w; "../../"].

(** The three locations tried for [filePath], in the order of the code. *)
Definition fullPath (filePath : string) : string :=
  Path.join [workspaceRoot; filePath].
Definition altPath1 (filePath : string) : string :=
  Path.resolve (cwd w) [cwd w; "../../"; filePath].
Definition altPath2 (filePath : string) : string :=
  Path.resolve (cwd w) [cwd w; filePath].

Definition candidates (filePath : string) : list string :=
  [fullPath filePath; altPath1 filePath; altPath2 filePath].

(** [content = await fs.readFile(path); whoisData = JSON.parse(content)] *)
Definition read_and_parse (path : string) : M jsval :=
  content <- readFile path ;;
  whoisData <- lift (JSON_parse content) ;;
  ret whoisData.

(** The inner [try] returns [Some whoisData] where the code returns from
    inside the [catch] block, [None] where it falls through to the read of
    [fullPath]. *)
Definition readWhoisFile (filePath : string) : M jsval :=
  try_catch
    (found <-
       try_catch
         (access (fullPath filePath) ;;; ret None)
         (fun accessError =>
            try_catch
              (access (altPath1 filePath) ;;;
               whoisData <- read_and_parse (altPath1 filePath) ;;
               ret (Some whoisData))
              (fun alt1Error =>
                 try_catch
                   (access (altPath2 filePath) ;;;
                    whoisData <- read_and_parse (altPath2 filePath) ;;
                    ret (Some whoisData))
                   (fun alt2Error =>
                      throw (mkError ("Whois file not found at any path: "
                                      +:+ filePath))))) ;;
     match found with
     | Some whoisData => ret whoisData
     | None => read_and_parse (fullPath filePath)
     end)
    (fun error =>
       if bool_decide (exn_code error = Some "ENOENT") then
         throw (mkError ("Whois file not found: " +:+ filePath))
       else
         match exn_cls error with
         | ClsSyntaxError =>
             throw (mkError ("Invalid JSON format in whois file: " +:+ filePath))
         | _ =>
             throw (mkError ("Failed to read whois file " +:+ filePath +:+ ": "
                             +:+ message error))
         end).

(** What an alternative location gives: the parsed content when the file
    is found, read and parsed there. *)
Definition alternative (path : string) : option jsval :=
  match fs_access w path, fs_readFile w path with
  | None, inr (JsonText v) => Some v
  | _, _ => None
  end.

(** The events of trying an alternative location. *)
Definition alternative_events (path : string) : list event :=
  match fs_access w path with
  | None => [EvAccess path; EvReadFile path]
  | Some _ => [EvAccess path]
  end.

(** *** Result file ([FileUtils.writeResultFile]) *)

Definition writeResultFile (result : jsval) : M unit :=
  let outputPath := "dns-sync-result.json" in
  try_catch
    (timestamp <- toISOString_now ;;
     let resultData :=
       VObj PlainObject (spread [("timestamp", VStr timestamp)] (enumerable_props result)) in
     writeFile outputPath resultData)
    (fun error => throw error).

(** *** Sync orchestrator ([DNSSyncHandler]) *)

Definition determineTriggerType : string :=
  let manualDomain := env w !! "MANUAL_DOMAIN" in
  let manualOperation := env w !! "MANUAL_OPERATION" in
  if env_truthy manualDomain || env_truthy manualOperation then "manual"
  else "pr_merge".

(** [fullPath] of [handleManualTrigger]: where the file named by
    [MANUAL_WHOIS_FILE] is read. *)
Definition manual_fullPath : string :=
  let whoisFile := env w !! "MANUAL_WHOIS_FILE" in
  let whoisFilePath := env w !! "WHOIS_FILE_PATH" in
  if env_truthy whoisFilePath then
    default "" whoisFilePath +:+ "/" +:+ replace "whois/" "" (default "" whoisFile)
  else if startsWith "whois/" (default "" whoisFile) then default "" whoisFile
  else "whois/" +:+ default "" whoisFile.

(** [domainFile] of [handleManualTrigger]: the file named after
    [MANUAL_DOMAIN]. *)
Definition manual_domainFile : string :=
  let domain := env w !! "MANUAL_DOMAIN" in
  let whoisFilePath := env w !! "WHOIS_FILE_PATH" in
  if env_truthy whoisFilePath then
    default "" whoisFilePath +:+ "/" +:+ default "" domain +:+ ".json"
  else "whois/" +:+ default "" domain +:+ ".json".

Definition handleManualTrigger : M jsval :=
  let domain := env w !! "MANUAL_DOMAIN" in
  let operation := env_or (env w !! "MANUAL_OPERATION") "auto" in
  let whoisFile := env w !! "MANUAL_WHOIS_FILE" in
  let forceSync := bool_decide (env w !! "FORCE_SYNC" = Some "true") in
  let whoisFilePath := env w !! "WHOIS_FILE_PATH" in
  if negb (env_truthy domain) && negb (env_truthy whoisFile) then
    throw (mkError "Either MANUAL_DOMAIN or MANUAL_WHOIS_FILE must be provided for manual trigger")
  else
    (* let whoisData = null *)
    whoisData <-
      (if env_truthy whoisFile then
         let fullPath := manual_fullPath in
         try_catch
           (whoisData <- readWhoisFile fullPath ;;
            targetDomain <- lift (get_field whoisData "domain") ;;
            ret whoisData)
           (fun error =>
              if forceSync then ret VNull
              else throw (mkError ("Failed to read WHOIS file " +:+ fullPath +:+ ": "
                                   +:+ message error)))
       else ret VNull) ;;
    whoisData <-
      (if env_truthy domain && negb (truthy whoisData) then
         let domainFile := manual_domainFile in
         try_catch
           (readWhoisFile domainFile)
           (fun error =>
              if forceSync then ret whoisData
              else throw (mkError ("Failed to read WHOIS file for domain "
                                   +:+ default "" domain +:+ ": " +:+ message error)))
       else ret whoisData) ;;
    whoisData <-
      (if negb (truthy whoisData) && env_truthy domain then
         match parseDomain (env_val domain) with
         | inl e => throw e
         | inr {| domain := domainName; sld := sld |} =>
             ret (VObj PlainObject [("domain", VStr domainName);
                                    ("sld", VStr sld);
                                    ("operation", VStr operation)])
         end
       else ret whoisData) ;;
    let mappedOperation := mapOperationType operation in
    result <-
      dnsManager_handleManualSync
        (env_or (env w !! "PR_TITLE") "Manual DNS Sync")
        whoisData
        (VObj PlainObject [("operation", mappedOperation);
                           ("forceSync", VBool forceSync);
                           ("triggeredBy", VStr (env_or (env w !! "GITHUB_ACTOR") "unknown"))]) ;;
    writeResultFile result ;;;
    ret result.

(** [extractedFilePath] and [filePath] of [handlePRMerge]: where the
    descriptor of a changed file is read, under [WHOIS_FILE_PATH] when it
    is set. *)
Definition pr_extractedFilePath (whoisFile : ChangedFile) : string :=
  let extractedFileName := replace "whois/" "" (filename whoisFile) in
  default "" (env w !! "WHOIS_FILE_PATH") +:+ "/" +:+ extractedFileName.

Definition pr_filePath (whoisFile : ChangedFile) : string :=
  if env_truthy (env w !! "WHOIS_FILE_PATH") then
    default "" (env w !! "WHOIS_FILE_PATH") +:+ "/"
    +:+ replace "whois/" "" (filename whoisFile)
  else filename whoisFile.

Definition handlePRMerge : M jsval :=
  let prTitle := env w !! "PR_TITLE" in
  let whoisFilePath := env w !! "WHOIS_FILE_PATH" in
  let operation := env_or (env w !! "OPERATION") "auto" in
  if negb (env_truthy prTitle) then
    throw (mkError "PR_TITLE environment variable is required")
  else
    files <-
      try_catch
        (match pr_files w with
         | Some content => lift content
         | None => ret []
         end)
        (fun error => throw (mkError ("Failed to read PR files: " +:+ message error))) ;;
    whoisFile <- lift (extractWhoisFiles files) ;;
    if String.eqb (status whoisFile) "removed" then
      match parseDomain (VStr (filename whoisFile)) with
      | inl e => throw e
      | inr {| domain := domainName; sld := sld |} =>
          (* let whoisData = null *)
          whoisData <-
            (if env_truthy whoisFilePath then
               try_catch
                 (let extractedFilePath := pr_extractedFilePath whoisFile in
                  whoisData <- readWhoisFile extractedFilePath ;;
                  (* a mismatch of domain or sld is only logged *)
                  whoisDomain <- lift (get_field whoisData "domain") ;;
                  ret whoisData)
                 (fun error => ret VNull)
             else ret VNull) ;;
          result <-
            dnsManager_handlePRMerge (default "" prTitle)
              (VObj PlainObject
                 (spread [("domain", VStr domainName);
                          ("sld", VStr sld);
                          ("operation", VStr "delete")]
                    (if truthy whoisData then [("originalData", whoisData)] else []))) ;;
          writeResultFile result ;;;
          ret result
      end
    else
      let filePath := pr_filePath whoisFile in
      whoisData <- readWhoisFile filePath ;;
      whoisData <-
        (if negb (String.eqb operation "auto") then
           lift (set_field whoisData "operation" (mapOperationType operation))
         else ret whoisData) ;;
      result <- dnsManager_handlePRMerge (default "" prTitle) whoisData ;;
      writeResultFile result ;;;
      ret result.

Definition handleSync : M jsval :=
  try_catch
    (let triggerType := determineTriggerType in
     if String.eqb triggerType "manual" then handleManualTrigger
     else handlePRMerge)
    (fun error =>
       timestamp <- toISOString_now ;;
       let errorResult :=
         VObj PlainObject [("success", VBool false);
                           ("error", VStr (message error));
                           ("timestamp", VStr timestamp);
                           ("triggerType", VStr determineTriggerType)] in
       writeResultFile errorResult ;;;
       throw error).

End Handler.

(** ** Observing a computation *)

(** [m] adds nothing to what [obs] sees of the events. *)
Definition preserves {X A} (obs : event -> option X) (m : M A) : Prop :=
  forall st, omap obs (events (snd (m st))) = omap obs (events st).

(** [m] persists nothing when it throws and exactly one record when it
    returns. *)
Definition persists_on_return {A} (m : M A) : Prop :=
  forall st,
    match m st with
    | (inl _, st') => persisted (events st') = persisted (events st)
    | (inr _, st') =>
        exists record, persisted (events st') = persisted (events st) ++ [record]
    end.

(** The error of a manual trigger that names neither a domain nor a
    descriptor file. *)
Definition MissingManualInput : exn :=
  mkError "Either MANUAL_DOMAIN or MANUAL_WHOIS_FILE must be provided for manual trigger".

(** The failure record of [handleSync] once [writeResultFile] has put its
    own [timestamp] property in front: the spread keeps that first place and
    takes the value of [errorResult]. *)
Definition failure_record (timestamp : string) (error : exn) (triggerType : string)
  : jsval :=
  VObj PlainObject [("timestamp", VStr timestamp);
                    ("success", VBool false);
                    ("error", VStr (message error));
                    ("triggerType", VStr triggerType)].

(** ** Concrete worlds *)

Module Examples.

Definition ENOENT (path : string) : exn :=
  {| exn_cls := ClsError; exn_code := Some "ENOENT";
     message := "ENOENT: no such file or directory, open '" +:+ path +:+ "'" |}.

Definition EROFS (path : string) : exn :=
  {| exn_cls := ClsError; exn_code := Some "EROFS";
     message := "EROFS: read-only file system, open '" +:+ path +:+ "'" |}.

Fixpoint file_at (files : list (string * text)) (path : string) : option text :=
  match files with
  | [] => None
  | (p, t) :: rest => if String.eqb p path then Some t else file_at rest path
  end.

(** A checkout of the repository on a CI runner, the scripts started from
    its root: the given environment, the given files and nothing else on
    disk, the given change-set file, a result file that can be written or
    not, and a DNS record manager that answers every request with the same
    success record. *)
Definition runner (vars : list (string * string)) (files : list (string * text))
    (changes : option (list ChangedFile)) (writable : bool) : World :=
  {| env := list_to_map vars;
     cwd := "/home/runner/work/repo/repo";
     utils_dirname := "/home/runner/work/repo/repo/.github/scripts/utils";
     fs_access := fun path =>
       match file_at files path with Some _ => None | None => Some (ENOENT path) end;
     fs_readFile := fun path =>
       match file_at files path with Some t => inr t | None => inl (ENOENT path) end;
     pr_files := option_map inr changes;
     fs_writeFile := fun _ path _ => if writable then None else Some (EROFS path);
     now := fun n => if (n =? 0)%nat then "2025-01-01T00:00:00.000Z"
                     else "2025-01-01T00:00:00.001Z";
     dns_handleManualSync := fun _ _ _ => inr (VObj PlainObject [("success", VBool true)]);
     dns_handlePRMerge := fun _ _ => inr (VObj PlainObject [("success", VBool true)]) |}.

(** The descriptor of [example.no.kg], in the [whois/] directory of the
    checkout. *)
Definition descriptor_path : string :=
  "/home/runner/work/repo/repo/whois/example.no.kg.json".

Definition descriptor : jsval :=
  VObj PlainObject [("domain", VStr "example"); ("sld", VStr "no.kg");
                    ("operation", VStr "registration")].

(** The descriptor is on disk, but its text is not JSON. *)
Definition malformed_checkout : World :=
  runner [] [(descriptor_path, BadText "{ domain: example")] None true.

(** A manual trigger with an operation only, on a disk where the result
    file cannot be written. *)
Definition manual_no_input_readonly : World :=
  runner [("MANUAL_OPERATION", "add")] [] None false.

(** The same trigger where the result file can be written. *)
Definition manual_no_input : World :=
  runner [("MANUAL_OPERATION", "add")] [] None true.

(** A forced manual registration of [example.no.kg] with no descriptor on
    disk. *)
Definition manual_forced : World :=
  runner [("MANUAL_DOMAIN", "example.no.kg"); ("MANUAL_OPERATION", "add");
          ("FORCE_SYNC", "true"); ("GITHUB_ACTOR", "octocat")] [] None true.

(** A merged pull request that removed the descriptor. *)
Definition merged_removal : World :=
  runner [("PR_TITLE", "Remove example.no.kg")] []
    (Some [ {| filename := "whois/example.no.kg.json"; status := "removed" |} ]) true.

(** A merged pull request that added the descriptor, with an operation
    override. *)
Definition merged_addition : World :=
  runner [("PR_TITLE", "Add example.no.kg"); ("OPERATION", "update")]
    [(descriptor_path, JsonText descriptor)]
    (Some [ {| filename := "whois/example.no.kg.json"; status := "added" |} ]) true.

End Examples.

(** ** The rest of [FileUtils] and the script entry point *)

Section Rest.

Variable w : World.

(** [FileUtils.getFullPath(relativePath, baseDir = process.cwd())]: the
    default applies when [baseDir] is not passed. *)
Definition getFullPath (relativePath : string) (baseDir : option string) : string :=
  Path.resolve (cwd w) [default (cwd w) baseDir; relativePath].

(** [FileUtils.fileExists(filePath)] *)
Definition fileExists (filePath : string) : M bool :=
  try_catch (access w filePath ;;; ret true) (fun _ => ret false).

(** The script run directly ([require.main === module]): the exit code
    passed to [process.exit]. The handler is taken as constructed. *)
Definition main : M Z :=
  try_catch (result <- handleSync w ;; ret 0%Z) (fun error => ret 1%Z).

End Rest.

(** ** The shape of a run *)

(** A call that only consults the file system. *)
Definition is_read (e : event) : Prop :=
  match e with
  | EvAccess _ | EvReadFile _ => True
  | _ => False
  end.

Definition is_manual_request (e : event) : Prop :=
  match e with EvManualSync _ _ _ => True | _ => False end.

Definition is_pr_request (e : event) : Prop :=
  match e with EvPRMerge _ _ => True | _ => False end.

(** What the DNS record manager answers to a request. *)
Definition answer (w : World) (req : event) : option (exn + jsval) :=
  match req with
  | EvManualSync title whoisData options =>
      Some (dns_handleManualSync w title whoisData options)
  | EvPRMerge title data => Some (dns_handlePRMerge w title data)
  | _ => None
  end.

(** [{ timestamp, ...result }], the record [writeResultFile] writes. *)
Definition stamped (timestamp : string) (result : jsval) : jsval :=
  VObj PlainObject (spread [("timestamp", VStr timestamp)] (enumerable_props result)).

(** [m] only consults the file system: it appends reads to the events and
    leaves the clock alone. *)
Definition reads_only {A} (m : M A) : Prop :=
  forall st, exists reads,
    Forall is_read reads
    /\ snd (m st) = {| events := events st ++ reads; clock_reads := clock_reads st |}.

(** The four ways a trigger path can end, from the state [st] it started
    in: it throws before any request; the DNS record manager throws; the
    manager answers and writing the result file fails; the manager answers
    and the result file is written. [kind] tells the requests of the path. *)
Inductive path_outcome (w : World) (kind : event -> Prop) (st : State)
  : (exn + jsval) * State -> Prop :=
| threw_before_request (reads : list event) (e : exn) :
    Forall is_read reads ->
    path_outcome w kind st
      (inl e, {| events := events st ++ reads; clock_reads := clock_reads st |})
| manager_threw (reads : list event) (req : event) (e : exn) :
    Forall is_read reads -> kind req ->
    answer w req = Some (inl e) ->
    path_outcome w kind st
      (inl e, {| events := events st ++ reads ++ [req]; clock_reads := clock_reads st |})
| write_failed (reads : list event) (req : event) (result : jsval) (e : exn) :
    Forall is_read reads -> kind req ->
    answer w req = Some (inr result) ->
    fs_writeFile w (events st ++ reads ++ [req]) "dns-sync-result.json"
      (stamped (now w (clock_reads st)) result) = Some e ->
    path_outcome w kind st
      (inl e,
       {| events := events st ++ reads
                    ++ [req; EvWriteFailed "dns-sync-result.json"
                               (stamped (now w (clock_reads st)) result)];
          clock_reads := S (clock_reads st) |})
| returned (reads : list event) (req : event) (result : jsval) :
    Forall is_read reads -> kind req ->
    answer w req = Some (inr result) ->
    fs_writeFile w (events st ++ reads ++ [req]) "dns-sync-result.json"
      (stamped (now w (clock_reads st)) result) = None ->
    path_outcome w kind st
      (inr result,
       {| events := events st ++ reads
                    ++ [req; EvWriteFile "dns-sync-result.json"
                               (stamped (now w (clock_reads st)) result)];
          clock_reads := S (clock_reads st) |}).

Definition path_shape (w : World) (kind : event -> Prop) (m : M jsval) : Prop :=
  forall st, path_outcome w kind st (m st).

(** The requests of the trigger [handleSync] selects. *)
Definition trigger_request (w : World) (e : event) : Prop :=
  if env_truthy (env w !! "MANUAL_DOMAIN") || env_truthy (env w !! "MANUAL_OPERATION")
  then is_manual_request e else is_pr_request e.

(** The last value assigned to [k] in a list of properties. *)
Definition last_prop (k : string) (props : list (string * jsval)) : option jsval :=
  own_prop k (rev props).

(** ** More concrete worlds *)

Module Scenarios.


(** A forced manual trigger that names only a descriptor file, which is not
    on disk. *)
Definition manual_file_missing_forced : World :=
  Examples.runner
    [("MANUAL_WHOIS_FILE", "example.no.kg.json"); ("MANUAL_OPERATION", "add");
     ("FORCE_SYNC", "true")] [] None true.

(** A manual trigger for a domain whose descriptor is not on disk, not
    forced. *)
Definition manual_domain_missing : World :=
  Examples.runner [("MANUAL_DOMAIN", "example.no.kg")] [] None true.

(** A merged pull request without a title in the environment. *)
Definition merged_untitled : World :=
  Examples.runner []
    [(Examples.descriptor_path, JsonText Examples.descriptor)]
    (Some [ {| filename := "whois/example.no.kg.json"; status := "added" |} ]) true.

(** A merged pull request whose change-set file is absent. *)
Definition merged_no_change_set : World :=
  Examples.runner [("PR_TITLE", "Add example.no.kg")] [] None true.

(** A merged pull request that removed a descriptor whose name has no
    dot. *)
Definition merged_removal_dotless : World :=
  Examples.runner [("PR_TITLE", "Remove localhost")] []
    (Some [ {| filename := "whois/localhost.json"; status := "removed" |} ]) true.

(** A merged pull request that added a descriptor file holding [null],
    with an operation override. *)
Definition merged_null_descriptor : World :=
  Examples.runner [("PR_TITLE", "Add example.no.kg"); ("OPERATION", "add")]
    [(Examples.descriptor_path, JsonText VNull)]
    (Some [ {| filename := "whois/example.no.kg.json"; status := "added" |} ]) true.

(** The descriptor kept outside the checkout, under an absolute
    [WHOIS_FILE_PATH]. *)
Definition merged_external : World :=
  Examples.runner [("PR_TITLE", "Add example.no.kg"); ("WHOIS_FILE_PATH", "/tmp/whois-files")]
    [("/tmp/whois-files/example.no.kg.json", JsonText Examples.descriptor)]
    (Some [ {| filename := "whois/example.no.kg.json"; status := "added" |} ]) true.

(** A DNS record manager that throws on every request. *)
Definition manager_down (w : World) (e : exn) : World :=
  {| env := env w; cwd := cwd w; utils_dirname := utils_dirname w;
     fs_access := fs_access w; fs_readFile := fs_readFile w; pr_files := pr_files w;
     fs_writeFile := fs_writeFile w; now := now w;
     dns_handleManualSync := fun _ _ _ => inl e;
     dns_handlePRMerge := fun _ _ => inl e |}.

(** The descriptor in the checkout, and two levels above the working
    directory a stray copy of it whose text is not JSON. *)
Definition stray_copy : World :=
  Examples.runner []
    [("/home/runner/work/whois/example.no.kg.json", BadText "{ domain: example");
     (Examples.descriptor_path, JsonText Examples.descriptor)] None true.

(** The descriptor in the checkout, and under [.github] a copy of it whose
    text is not JSON. *)
Definition stray_copy_first : World :=
  Examples.runner []
    [("/home/runner/work/repo/repo/.github/whois/example.no.kg.json",
      BadText "{ domain: example");
     (Examples.descriptor_path, JsonText Examples.descriptor)] None true.

(** The descriptor two levels above the working directory, and in the
    checkout a file of the same name that holds [null]. *)
Definition descriptor_outside : World :=
  Examples.runner []
    [("/home/runner/work/whois/example.no.kg.json", JsonText Examples.descriptor);
     (Examples.descriptor_path, JsonText VNull)] None true.

End Scenarios.

(** ** Sanity checks *)

Example parse_ab : parseDomain (VStr "a.b") = inr {| domain := "a"; sld := "b" |}.
Proof. reflexivity. Qed.
Example parse_file : parseDomain (VStr "whois/example.no.kg.json") = inr {| domain := "example"; sld := "no.kg" |}.
Proof. reflexivity. Qed.
Example parse_4 : parseDomain (VStr "a.b.c.d") = inr {| domain := "a"; sld := "b.c.d" |}.
Proof. reflexivity. Qed.
Example map_ctor : mapOperationType "constructor" = VBuiltin "Object".
Proof. reflexivity. Qed.
Example map_custom : mapOperationType "custom" = VStr "custom".
Proof. reflexivity. Qed.

(** ** Facts on strings *)

Section StringFacts.

Variable sep : ascii.

Lemma split_not_nil (s : string) : split sep s <> [].
Proof.
  destruct s as [|c s]; simpl; [discriminate|].
  destruct (Ascii.eqb c sep); [discriminate|].
  destruct (split sep s); discriminate.
Qed.

Lemma join_cons (x y : string) (l : list string) :
  join (String sep "") (x :: y :: l) = x +:+ String sep (join (String sep "") (y :: l)).
Proof. reflexivity. Qed.

(** Joining the parts of a split gives the string back. *)
Lemma join_split (s : string) : join (String sep "") (split sep s) = s.
Proof.
  induction s as [|c s IH]; [reflexivity|].
  simpl split. pose proof (split_not_nil s) as Hne.
  destruct (Ascii.eqb c sep) eqn:E.
  - apply Ascii.eqb_eq in E. subst c.
    destruct (split sep s) as [|p ps]; [congruence|].
    rewrite join_cons, IH. reflexivity.
  - destruct (split sep s) as [|p ps]; [congruence|].
    destruct ps as [|q ps].
    + simpl in IH |- *. now rewrite IH.
    + rewrite join_cons in IH |- *. rewrite <- IH. reflexivity.
Qed.

(** A string whose first [sep] comes right after [a] splits into [a] and
    the parts of the rest. *)
Lemma split_app (a r : string) :
  has_char sep a = false ->
  split sep (a +:+ String sep r) = a :: split sep r.
Proof.
  induction a as [|c a IH]; simpl; intros H.
  - rewrite Ascii.eqb_refl. reflexivity.
  - apply orb_false_iff in H as [Hc Ha].
    rewrite Hc, (IH Ha). reflexivity.
Qed.

Lemma split_no_sep (s : string) :
  has_char sep s = false -> split sep s = [s].
Proof.
  induction s as [|c s IH]; simpl; intros H; [reflexivity|].
  apply orb_false_iff in H as [Hc Hs].
  rewrite Hc, (IH Hs). reflexivity.
Qed.

Lemma split_has_sep (s : string) :
  has_char sep s = true -> 2 <= length (split sep s).
Proof.
  induction s as [|c s IH]; simpl; intros H; [discriminate|].
  pose proof (split_not_nil s) as Hne.
  destruct (Ascii.eqb c sep) eqn:E.
  - destruct (split sep s); [congruence|]. simpl. lia.
  - simpl in H. specialize (IH H).
    destruct (split sep s) as [|p ps]; simpl in *; lia.
Qed.

(** At least two parts exactly when the separator occurs. *)
Lemma split_length (s : string) :
  2 <= length (split sep s) <-> has_char sep s = true.
Proof.
  split; [|apply split_has_sep].
  destruct (has_char sep s) eqn:E; [reflexivity|].
  rewrite (split_no_sep s E). simpl. lia.
Qed.

End StringFacts.

Lemma append_cons (c : ascii) (a b : string) : String c a +:+ b = String c (a +:+ b).
Proof. reflexivity. Qed.

Lemma append_assoc (a b c : string) : (a +:+ b) +:+ c = a +:+ (b +:+ c).
Proof.
  induction a as [|x a IH]; [reflexivity|].
  rewrite !append_cons, IH. reflexivity.
Qed.

Lemma append_nil_r (a : string) : a +:+ "" = a.
Proof.
  induction a as [|x a IH]; [reflexivity|].
  rewrite append_cons, IH. reflexivity.
Qed.

Lemma occurs_in_refl (s : string) : occurs_in s s.
Proof. exists "", "". change (s = s +:+ ""). now rewrite append_nil_r. Qed.

Lemma occurs_in_app_l (x pre s : string) : occurs_in x s -> occurs_in x (pre +:+ s).
Proof.
  intros (a & b & ->). exists (pre +:+ a), b. now rewrite append_assoc.
Qed.

Lemma occurs_in_app_r (x s post : string) : occurs_in x s -> occurs_in x (s +:+ post).
Proof.
  intros (a & b & ->). exists a, (b +:+ post). now rewrite !append_assoc.
Qed.

(** Every element of a joined list occurs in the result. *)
Lemma occurs_in_join (sep x : string) (l : list string) :
  In x l -> occurs_in x (join sep l).
Proof.
  induction l as [|y l IH]; [intros []|].
  intros [->|H].
  - destruct l as [|z l]; [apply occurs_in_refl|].
    change (occurs_in x (x +:+ (sep +:+ join sep (z :: l)))).
    apply occurs_in_app_r, occurs_in_refl.
  - destruct l as [|z l]; [destruct H|].
    change (occurs_in x (y +:+ (sep +:+ join sep (z :: l)))).
    apply occurs_in_app_l, occurs_in_app_l, IH, H.
Qed.

(** ** Domain parser *)

Lemma parseDomain_parts (s a : string) (rest : list string) :
  s <> "" ->
  split "." (cleanDomain s) = a :: rest ->
  rest <> [] ->
  parseDomain (VStr s) = inr {| domain := a; sld := join "." rest |}.
Proof.
  intros Hs Hparts Hrest. unfold parseDomain.
  assert (truthy (VStr s) = true) as ->.
  { simpl. destruct (String.eqb_spec s ""); [contradiction|reflexivity]. }
  simpl. rewrite Hparts.
  destruct rest as [|r1 [|r2 [|r3 rest]]]; [contradiction|reflexivity..].
Qed.

Lemma parseDomain_not_string (v : jsval) :
  (forall s, v <> VStr s) ->
  parseDomain v = inl (mkError "Domain string is required and must be a string").
Proof.
  intros H. destruct v; try reflexivity.
  - unfold parseDomain. simpl. now destruct b.
  - unfold parseDomain. simpl. now destruct (n =? 0)%Z.
  - now destruct (H s).
Qed.

Lemma startsWith_app (p s : string) : startsWith p (p +:+ s) = true.
Proof.
  induction p as [|c p IH]; [reflexivity|].
  rewrite append_cons. simpl. now rewrite Ascii.eqb_refl, IH.
Qed.

Lemma drop_app (p s : string) : drop (String.length p) (p +:+ s) = s.
Proof. induction p as [|c p IH]; [reflexivity|]. rewrite append_cons. exact IH. Qed.

Lemma take_app (s p : string) : take (String.length s) (s +:+ p) = s.
Proof.
  induction s as [|c s IH]; [reflexivity|].
  rewrite append_cons. simpl. now rewrite IH.
Qed.

Lemma length_append (s p : string) :
  String.length (s +:+ p) = String.length s + String.length p.
Proof.
  induction s as [|c s IH]; [reflexivity|].
  rewrite append_cons. simpl. now rewrite IH.
Qed.

Lemma strip_prefix_app (p s : string) : strip_prefix p (p +:+ s) = s.
Proof. unfold strip_prefix. now rewrite startsWith_app, drop_app. Qed.

Lemma strip_suffix_app (s p : string) : strip_suffix p (s +:+ p) = s.
Proof.
  unfold strip_suffix, endsWith. rewrite length_append.
  replace (String.length s + String.length p - String.length p) with (String.length s) by lia.
  rewrite drop_app, take_app, String.eqb_refl.
  destruct (Nat.leb_spec (String.length p) (String.length s + String.length p)); [reflexivity|lia].
Qed.

(** A descriptor path [whois/<name>.json] cleans to [<name>]. *)
Lemma cleanDomain_descriptor_path (name : string) :
  cleanDomain ("whois/" +:+ name +:+ ".json") = name.
Proof. unfold cleanDomain. now rewrite strip_prefix_app, strip_suffix_app. Qed.

(** C1. [parseDomain] on a non-empty string whose cleaned form has at least
    two dot-separated labels returns the first label as [domain] and the
    remaining labels joined by [.] as [sld], which is the cleaned form after
    its first dot; on anything that is not a non-empty string, and on a
    cleaned form with fewer than two labels, it fails with
    [InvalidDomainFormat]. *)
Theorem parseDomain_spec (input : jsval) :
  (forall s, input = VStr s -> s <> "" ->
     2 <= length (split "." (cleanDomain s)) ->
     exists a rest,
       split "." (cleanDomain s) = a :: rest
       /\ parseDomain input = inr {| domain := a; sld := join "." rest |})
  /\ (forall s a r, input = VStr s -> s <> "" ->
        cleanDomain s = a +:+ "." +:+ r -> has_char "." a = false ->
        parseDomain input = inr {| domain := a; sld := r |})
  /\ ((forall s, input = VStr s ->
         s = "" \/ length (split "." (cleanDomain s)) < 2) ->
      exists e, parseDomain input = inl e /\ InvalidDomainFormat e).
Proof.
  split; [|split].
  - intros s -> Hs Hlen.
    destruct (split "." (cleanDomain s)) as [|a rest] eqn:Hparts; [simpl in Hlen; lia|].
    exists a, rest. split; [reflexivity|].
    apply parseDomain_parts; [assumption..|].
    intros ->. simpl in Hlen. lia.
  - intros s a r -> Hs Hclean Ha.
    pose proof (split_app "." a r Ha) as Hsplit.
    change (a +:+ String "." r) with (a +:+ "." +:+ r) in Hsplit.
    rewrite <- Hclean in Hsplit.
    rewrite (parseDomain_parts s a (split "." r) Hs Hsplit (split_not_nil "." r)).
    change "."%string with (String "."%char "").
    now rewrite join_split.
  - intros H.
    destruct input as [| |b|n|s|c props|name];
      try (eexists; split; [apply parseDomain_not_string; discriminate | now left]).
    destruct (H s eq_refl) as [->|Hlen].
    + eexists. split; [reflexivity | now left].
    + unfold parseDomain.
      destruct (negb (truthy (VStr s)) || negb (is_string (VStr s))) eqn:E.
      * eexists. split; [reflexivity | now left].
      * apply Nat.ltb_lt in Hlen. rewrite Hlen.
        eexists. split; [reflexivity | right; now exists s].
Qed.

Lemma parseDomain_spec_witness :
  parseDomain (VStr "whois/new-dns-example.no.kg.json")
  = inr {| domain := "new-dns-example"; sld := "no.kg" |}
  /\ (exists e, parseDomain (VStr "singlelabel") = inl e /\ InvalidDomainFormat e).
Proof.
  split.
  - apply (proj1 (proj2 (parseDomain_spec (VStr "whois/new-dns-example.no.kg.json")))
             "whois/new-dns-example.no.kg.json" "new-dns-example" "no.kg");
      [reflexivity | discriminate | reflexivity | reflexivity].
  - apply (proj2 (proj2 (parseDomain_spec (VStr "singlelabel")))).
    intros s [= <-]. right. simpl. lia.
Defined.

(** ** Change-set extractor *)

Lemma filter_non_removed (files : list ChangedFile) :
  List.filter is_non_removed_whois_file files
  = List.filter (fun f => negb (String.eqb (status f) "removed"))
      (List.filter is_whois_file files).
Proof.
  induction files as [|f files IH]; [reflexivity|].
  simpl. rewrite IH.
  assert (is_non_removed_whois_file f
          = is_whois_file f && negb (String.eqb (status f) "removed")) as -> by reflexivity.
  destruct (is_whois_file f); simpl;
    [destruct (negb (String.eqb (status f) "removed"))|]; reflexivity.
Qed.

(** C3. Both extractors keep the entries under [whois/] that end in [.json]
    ([extractNonRemovedWhoisFiles] drops the removed ones among them); no
    candidate is a no-descriptor error, several are an ambiguity error whose
    message names each of them, exactly one is returned. *)
Theorem extract_exactly_one (files : list ChangedFile) :
  let whois :=
    List.filter (fun f => startsWith "whois/" (filename f)
                          && endsWith ".json" (filename f)) files in
  let kept :=
    List.filter (fun f => negb (String.eqb (status f) "removed")) whois in
  ((whois = [] ->
    extractWhoisFiles files = inl (mkError "No whois files found in PR changes"))
   /\ (1 < length whois ->
       exists e, extractWhoisFiles files = inl e
         /\ message e = "Multiple whois files found in PR changes: "
                        +:+ join ", " (map filename whois)
         /\ forall f, In f whois -> occurs_in (filename f) (message e))
   /\ (forall f, whois = [f] -> extractWhoisFiles files = inr f))
  /\
  ((kept = [] ->
    extractNonRemovedWhoisFiles files
    = inl (mkError "No non-removed whois files found in PR changes"))
   /\ (1 < length kept ->
       exists e, extractNonRemovedWhoisFiles files = inl e
         /\ message e = "Multiple non-removed whois files found in PR changes: "
                        +:+ join ", " (map filename kept)
         /\ forall f, In f kept -> occurs_in (filename f) (message e))
   /\ (forall f, kept = [f] -> extractNonRemovedWhoisFiles files = inr f)).
Proof.
  intros whois kept. split.
  - change whois with (List.filter is_whois_file files). clear kept whois.
    unfold extractWhoisFiles. cbv zeta.
    generalize (List.filter is_whois_file files). intros l.
    repeat split.
    + intros ->. reflexivity.
    + intros Hlen.
      destruct l as [|f1 [|f2 rest]]; [simpl in Hlen; lia..|].
      eexists. split; [reflexivity|]. split; [reflexivity|].
      intros f Hf. apply occurs_in_app_l, occurs_in_join, in_map, Hf.
    + intros f ->. reflexivity.
  - assert (kept = List.filter is_non_removed_whois_file files) as ->
        by (symmetry; apply filter_non_removed).
    clear whois.
    unfold extractNonRemovedWhoisFiles. cbv zeta.
    generalize (List.filter is_non_removed_whois_file files). intros l.
    repeat split.
    + intros ->. reflexivity.
    + intros Hlen.
      destruct l as [|f1 [|f2 rest]]; [simpl in Hlen; lia..|].
      eexists. split; [reflexivity|]. split; [reflexivity|].
      intros f Hf. apply occurs_in_app_l, occurs_in_join, in_map, Hf.
    + intros f ->. reflexivity.
Qed.

Lemma extract_exactly_one_witness :
  extractWhoisFiles [ {| filename := "README.md"; status := "modified" |};
                      {| filename := "whois/example.no.kg.json"; status := "removed" |} ]
  = inr {| filename := "whois/example.no.kg.json"; status := "removed" |}.
Proof.
  apply (proj2 (proj2 (proj1 (extract_exactly_one _)))). reflexivity.
Defined.

(** ** Operation mapper *)

Lemma mapOperationType_table :
  mapOperationType "add" = VStr "registration"
  /\ mapOperationType "update" = VStr "update"
  /\ mapOperationType "delete" = VStr "remove"
  /\ mapOperationType "registration" = VStr "registration"
  /\ mapOperationType "remove" = VStr "remove".
Proof. repeat split. Qed.

(** A name that is neither in the table nor inherited from
    [Object.prototype] passes through. *)
Lemma mapOperationType_passthrough (operation : string) :
  own_prop operation operationMap = None ->
  own_prop operation Object_prototype = None ->
  mapOperationType operation = VStr operation.
Proof.
  intros Hown Hproto. unfold mapOperationType, literal_get.
  rewrite Hown, Hproto. reflexivity.
Qed.

(** C5. The lookup [operationMap[operation]] also finds what every object
    inherits: for [constructor], which is not in the table,
    [mapOperationType] returns the built-in [Object] function and not the
    string it was given. *)
Theorem mapOperationType_inherited_name :
  own_prop "constructor" operationMap = None
  /\ mapOperationType "constructor" = VBuiltin "Object"
  /\ mapOperationType "constructor" <> VStr "constructor".
Proof. repeat split. discriminate. Qed.

(** ** What a computation leaves in the event log *)

Lemma omap_log {X} (obs : event -> option X) (e : event) (st : State) :
  omap obs (events (log e st))
  = omap obs (events st) ++ match obs e with Some x => [x] | None => [] end.
Proof.
  unfold log. simpl. rewrite omap_app. simpl. now destruct (obs e).
Qed.

Section Preserves.

Context {X : Type} (obs : event -> option X).

Lemma preserves_ret {A} (a : A) : preserves obs (ret a).
Proof. intros st. reflexivity. Qed.

Lemma preserves_throw {A} (e : exn) : preserves obs (@throw A e).
Proof. intros st. reflexivity. Qed.

Lemma preserves_lift {A} (r : exn + A) : preserves obs (lift r).
Proof. intros st. reflexivity. Qed.

Lemma preserves_bind {A B} (m : M A) (k : A -> M B) :
  preserves obs m -> (forall a, preserves obs (k a)) -> preserves obs (bind m k).
Proof.
  intros Hm Hk st. unfold bind. specialize (Hm st).
  destruct (m st) as [[e|a] st1]; simpl in *; [assumption|].
  now rewrite Hk.
Qed.

Lemma preserves_try_catch {A} (m : M A) (handler : exn -> M A) :
  preserves obs m -> (forall e, preserves obs (handler e)) ->
  preserves obs (try_catch m handler).
Proof.
  intros Hm Hh st. unfold try_catch. specialize (Hm st).
  destruct (m st) as [[e|a] st1]; simpl in *; [|assumption].
  now rewrite Hh.
Qed.

Lemma preserves_now (w : World) : preserves obs (toISOString_now w).
Proof. intros st. reflexivity. Qed.

Lemma preserves_access (w : World) (p : string) :
  obs (EvAccess p) = None -> preserves obs (access w p).
Proof. intros H st. unfold access. simpl snd. rewrite omap_log, H. apply app_nil_r. Qed.

Lemma preserves_readFile (w : World) (p : string) :
  obs (EvReadFile p) = None -> preserves obs (readFile w p).
Proof. intros H st. unfold readFile. simpl snd. rewrite omap_log, H. apply app_nil_r. Qed.

Lemma preserves_manualSync (w : World) (t : string) (d o : jsval) :
  obs (EvManualSync t d o) = None -> preserves obs (dnsManager_handleManualSync w t d o).
Proof.
  intros H st. unfold dnsManager_handleManualSync. simpl snd.
  rewrite omap_log, H. apply app_nil_r.
Qed.

Lemma preserves_prMerge (w : World) (t : string) (d : jsval) :
  obs (EvPRMerge t d) = None -> preserves obs (dnsManager_handlePRMerge w t d).
Proof.
  intros H st. unfold dnsManager_handlePRMerge. simpl snd.
  rewrite omap_log, H. apply app_nil_r.
Qed.

Lemma preserves_writeFile (w : World) (p : string) (d : jsval) :
  obs (EvWriteFile p d) = None -> obs (EvWriteFailed p d) = None ->
  preserves obs (writeFile w p d).
Proof.
  intros H1 H2 st. unfold writeFile.
  destruct (fs_writeFile w (events st) p d); simpl snd;
    rewrite omap_log, ?H1, ?H2; apply app_nil_r.
Qed.

End Preserves.

(** Decompose a goal [preserves obs m] along the structure of [m]. *)
Ltac preserves_step :=
  first
    [ apply preserves_ret
    | apply preserves_throw
    | apply preserves_lift
    | apply preserves_now
    | apply preserves_access; reflexivity
    | apply preserves_readFile; reflexivity
    | apply preserves_manualSync; reflexivity
    | apply preserves_prMerge; reflexivity
    | apply preserves_writeFile; reflexivity
    | apply preserves_bind; [|intros ?]
    | apply preserves_try_catch; [|intros ?]
    | match goal with
      | |- preserves _ (if ?b then _ else _) => destruct b
      | |- preserves _ (match ?x with _ => _ end) => destruct x
      end ].

Ltac preserves_tac := cbv zeta; repeat preserves_step.

(** Reading a descriptor only consults the file system. *)
Lemma readWhoisFile_persists_nothing (w : World) (filePath : string) :
  preserves written (readWhoisFile w filePath).
Proof. unfold readWhoisFile, read_and_parse. preserves_tac. Qed.

Lemma readWhoisFile_dispatches_nothing (w : World) (filePath : string) :
  preserves request (readWhoisFile w filePath).
Proof. unfold readWhoisFile, read_and_parse. preserves_tac. Qed.

Lemma writeResultFile_dispatches_nothing (w : World) (result : jsval) :
  preserves request (writeResultFile w result).
Proof. unfold writeResultFile. preserves_tac. Qed.

(** ** Descriptor loader *)

Lemma log_log (e1 e2 : event) (st : State) :
  log e2 (log e1 st)
  = {| events := events st ++ [e1; e2]; clock_reads := clock_reads st |}.
Proof. unfold log. simpl. now rewrite <- app_assoc. Qed.

Section ReadWhoisFile.

Variable w : World.
Variable filePath : string.

(** The file is found at the first location: it is read there, and a text
    that is not JSON is reported as such. *)
Lemma readWhoisFile_primary (st : State) :
  fs_access w (fullPath w filePath) = None ->
  readWhoisFile w filePath st
  = (match fs_readFile w (fullPath w filePath) with
     | inr (JsonText v) => inr v
     | inr (BadText _) =>
         inl (mkError ("Invalid JSON format in whois file: " +:+ filePath))
     | inl e =>
         if bool_decide (exn_code e = Some "ENOENT") then
           inl (mkError ("Whois file not found: " +:+ filePath))
         else
           match exn_cls e with
           | ClsSyntaxError =>
               inl (mkError ("Invalid JSON format in whois file: " +:+ filePath))
           | _ =>
               inl (mkError ("Failed to read whois file " +:+ filePath +:+ ": "
                             +:+ message e))
           end
     end,
     log (EvReadFile (fullPath w filePath)) (log (EvAccess (fullPath w filePath)) st)).
Proof.
  intros Hacc.
  unfold readWhoisFile, try_catch, bind, access, read_and_parse, bind, readFile, lift, ret, throw.
  rewrite Hacc.
  destruct (fs_readFile w (fullPath w filePath)) as [e|[v|raw]]; cbn [JSON_parse]; [|reflexivity..].
  destruct (bool_decide (exn_code e = Some "ENOENT")); [reflexivity|].
  destruct (exn_cls e); reflexivity.
Qed.

(** The file is not found at the first location: the alternatives are
    tried in turn, and whatever goes wrong at both, a text that is not JSON
    included, ends as the same error. *)
Lemma readWhoisFile_alternatives (st : State) :
  fs_access w (fullPath w filePath) <> None ->
  readWhoisFile w filePath st
  = match alternative w (altPath1 w filePath) with
    | Some v =>
        (inr v,
         {| events := events st ++ EvAccess (fullPath w filePath)
                                :: alternative_events w (altPath1 w filePath);
            clock_reads := clock_reads st |})
    | None =>
        (match alternative w (altPath2 w filePath) with
         | Some v => inr v
         | None =>
             inl (mkError ("Failed to read whois file " +:+ filePath +:+ ": "
                           +:+ "Whois file not found at any path: " +:+ filePath))
         end,
         {| events := events st ++ EvAccess (fullPath w filePath)
                                :: alternative_events w (altPath1 w filePath)
                                ++ alternative_events w (altPath2 w filePath);
            clock_reads := clock_reads st |})
    end.
Proof.
  intros Hacc.
  unfold readWhoisFile, try_catch, bind, access, read_and_parse, bind, readFile, lift, ret,
    throw, alternative, alternative_events, log.
  destruct (fs_access w (fullPath w filePath)) as [e0|]; [clear Hacc|congruence].
  cbn [events clock_reads].
  destruct (fs_access w (altPath1 w filePath)) as [e1|];
    [|destruct (fs_readFile w (altPath1 w filePath)) as [e1|[v1|raw1]]];
    cbn [JSON_parse events clock_reads];
    try (destruct (fs_access w (altPath2 w filePath)) as [e2|];
         [|destruct (fs_readFile w (altPath2 w filePath)) as [e2|[v2|raw2]]]);
    cbn [JSON_parse events clock_reads bool_decide exn_code exn_cls mkError message];
    repeat rewrite <- app_assoc; reflexivity.
Qed.

End ReadWhoisFile.

(** C7. On a checkout that holds the descriptor, with a stray copy two
    levels above the working directory whose text is not JSON,
    [readWhoisFile] finds the file at the second location and reads it, then
    goes on to the third location and returns what is there: the [catch]
    around the second location takes the [SyntaxError] of [JSON.parse] for
    a file that is absent. What is returned is not the content of the first
    location at which the file is found, and a later location is consulted
    after the file was found. At the first location a text that is not JSON
    ends the search with [Invalid JSON format]. The first location is under
    [.github], two levels above the directory of [file-utils.js], and not
    under the root of the checkout. *)
Theorem readWhoisFile_passes_over_found_file :
  let filePath := "whois/example.no.kg.json" in
  let under_github := "/home/runner/work/repo/repo/.github/whois/example.no.kg.json" in
  let stray := "/home/runner/work/whois/example.no.kg.json" in
  cwd Scenarios.stray_copy = "/home/runner/work/repo/repo"
  /\ workspaceRoot Scenarios.stray_copy = "/home/runner/work/repo/repo/.github"
  /\ candidates Scenarios.stray_copy filePath
     = [under_github; stray; Examples.descriptor_path]
  /\ fs_access Scenarios.stray_copy under_github <> None
  /\ fs_access Scenarios.stray_copy stray = None
  /\ fs_readFile Scenarios.stray_copy stray = inr (BadText "{ domain: example")
  /\ readWhoisFile Scenarios.stray_copy filePath initial
     = (inr Examples.descriptor,
        {| events := [ EvAccess under_github;
                       EvAccess stray; EvReadFile stray;
                       EvAccess Examples.descriptor_path;
                       EvReadFile Examples.descriptor_path ];
           clock_reads := 0 |})
  /\ fs_readFile Scenarios.stray_copy_first under_github
     = inr (BadText "{ domain: example")
  /\ readWhoisFile Scenarios.stray_copy_first filePath initial
     = (inl (mkError "Invalid JSON format in whois file: whois/example.no.kg.json"),
        {| events := [EvAccess under_github; EvReadFile under_github];
           clock_reads := 0 |}).
Proof. cbv zeta. repeat split. vm_compute. discriminate. Qed.

(** C6. On a checkout whose descriptor is on disk at the third location
    with a text that is not JSON, [readWhoisFile] does not report malformed
    data: the [catch] of the alternative locations turns the [SyntaxError]
    into the error of a file found nowhere. At the first location the same
    text is reported as invalid JSON ([readWhoisFile_primary]). *)
Theorem readWhoisFile_malformed_alternative :
  let filePath := "whois/example.no.kg.json" in
  let result := fst (readWhoisFile Examples.malformed_checkout filePath initial) in
  candidates Examples.malformed_checkout filePath
  = [ "/home/runner/work/repo/repo/.github/whois/example.no.kg.json";
      "/home/runner/work/whois/example.no.kg.json";
      Examples.descriptor_path ]
  /\ fs_access Examples.malformed_checkout Examples.descriptor_path = None
  /\ fs_readFile Examples.malformed_checkout Examples.descriptor_path
     = inr (BadText "{ domain: example")
  /\ result = inl (mkError ("Failed to read whois file whois/example.no.kg.json: "
                            +:+ "Whois file not found at any path: whois/example.no.kg.json"))
  /\ result <> inl (mkError "Invalid JSON format in whois file: whois/example.no.kg.json").
Proof. repeat split. vm_compute. discriminate. Qed.

(** ** Sync orchestrator: requests to the DNS record manager *)

Lemma dispatched_log (e : event) (st : State) :
  dispatched (events (log e st))
  = dispatched (events st) ++ match request e with Some x => [x] | None => [] end.
Proof. apply omap_log. Qed.

(** The end of both branches of [handlePRMerge]: one request, then the
    result file. *)
Lemma prMerge_then_write (w : World) (title : string) (data : jsval) (st : State) :
  dispatched (events (snd ((result <- dnsManager_handlePRMerge w title data ;;
                            writeResultFile w result ;;; ret result) st)))
  = dispatched (events st) ++ [EvPRMerge title data].
Proof.
  unfold bind at 1, dnsManager_handlePRMerge.
  destruct (dns_handlePRMerge w title data) as [e|result].
  - apply dispatched_log.
  - pose proof (preserves_bind request (writeResultFile w result) (fun _ => ret result)
                  (writeResultFile_dispatches_nothing w result)
                  (fun _ => preserves_ret request result)
                  (log (EvPRMerge title data) st)) as H.
    unfold dispatched. rewrite H. apply dispatched_log.
Qed.

(** The end of [handleManualTrigger]. *)
Lemma manualSync_then_write (w : World) (title : string) (data options : jsval) (st : State) :
  dispatched (events (snd ((result <- dnsManager_handleManualSync w title data options ;;
                            writeResultFile w result ;;; ret result) st)))
  = dispatched (events st) ++ [EvManualSync title data options].
Proof.
  unfold bind at 1, dnsManager_handleManualSync.
  destruct (dns_handleManualSync w title data options) as [e|result].
  - apply dispatched_log.
  - pose proof (preserves_bind request (writeResultFile w result) (fun _ => ret result)
                  (writeResultFile_dispatches_nothing w result)
                  (fun _ => preserves_ret request result)
                  (log (EvManualSync title data options) st)) as H.
    unfold dispatched. rewrite H. apply dispatched_log.
Qed.

Lemma env_truthy_Some (s : string) : s <> "" -> env_truthy (Some s) = true.
Proof. intros H. simpl. now destruct (String.eqb_spec s ""). Qed.

(** C2. A change-set whose only entry is [whois/example.no.kg.json] with
    status [removed] makes [handlePRMerge] send exactly one request to the DNS
    record manager: [domain] and [sld] parsed from the file name,
    [operation] [delete], whatever is or is not on disk. The request carries
    [originalData] only when the read under [WHOIS_FILE_PATH] returned it. *)
Theorem handlePRMerge_removed (w : World) (title : string) (st : State) :
  let whoisFile := {| filename := "whois/example.no.kg.json"; status := "removed" |} in
  env w !! "PR_TITLE" = Some title ->
  title <> "" ->
  pr_files w = Some (inr [whoisFile]) ->
  exists originalData : list (string * jsval),
    dispatched (events (snd (handlePRMerge w st)))
    = dispatched (events st)
      ++ [EvPRMerge title
            (VObj PlainObject ([("domain", VStr "example");
                                ("sld", VStr "no.kg");
                                ("operation", VStr "delete")] ++ originalData))]
    /\ (originalData = []
        \/ exists data,
             originalData = [("originalData", data)]
             /\ env_truthy (env w !! "WHOIS_FILE_PATH") = true
             /\ fst (readWhoisFile w (pr_extractedFilePath w whoisFile) st) = inr data).
Proof.
  intros whoisFile Htitle Hne Hfiles.
  unfold handlePRMerge. rewrite Htitle, Hfiles, (env_truthy_Some title Hne).
  cbv zeta. cbn [negb]. 
  unfold bind at 1. unfold try_catch at 1. unfold lift at 1.
  unfold bind at 1. unfold lift at 1.
  change (extractWhoisFiles [whoisFile]) with (@inr exn _ whoisFile).
  cbv iota beta.
  change (String.eqb (status whoisFile) "removed") with true. cbv iota.
  change (parseDomain (VStr (filename whoisFile)))
    with (@inr exn _ {| domain := "example"; sld := "no.kg" |}).
  cbv iota beta.
  unfold bind at 1.
  destruct (env_truthy (env w !! "WHOIS_FILE_PATH")) eqn:Hpath.
  - unfold try_catch at 1. unfold bind at 1.
    pose proof (readWhoisFile_dispatches_nothing w (pr_extractedFilePath w whoisFile) st) as Hsame.
    fold whoisFile.
    destruct (readWhoisFile w (pr_extractedFilePath w whoisFile) st) as [[e|data] st1] eqn:Hread;
      simpl snd in Hsame.
    + unfold ret at 1. rewrite prMerge_then_write. unfold dispatched. rewrite Hsame.
      exists []. split; [reflexivity | now left].
    + unfold bind at 1. unfold lift at 1.
      destruct (get_field data "domain") as [e|whoisDomain] eqn:Hget.
      * unfold ret at 1. rewrite prMerge_then_write. unfold dispatched. rewrite Hsame.
        exists []. split; [reflexivity | now left].
      * unfold ret at 1. rewrite prMerge_then_write. unfold dispatched. rewrite Hsame.
        destruct (truthy data).
        -- exists [("originalData", data)]. split; [reflexivity|].
           right. exists data. repeat split. 
        -- exists []. split; [reflexivity | now left].
  - unfold ret at 1. rewrite prMerge_then_write.
    exists []. split; [reflexivity | now left].
Qed.

Lemma handlePRMerge_removed_witness :
  exists originalData : list (string * jsval),
    dispatched (events (snd (handlePRMerge Examples.merged_removal initial)))
    = dispatched (events initial)
      ++ [EvPRMerge "Remove example.no.kg"
            (VObj PlainObject ([("domain", VStr "example");
                                ("sld", VStr "no.kg");
                                ("operation", VStr "delete")] ++ originalData))]
    /\ (originalData = []
        \/ exists data,
             originalData = [("originalData", data)]
             /\ env_truthy (env Examples.merged_removal !! "WHOIS_FILE_PATH") = true
             /\ fst (readWhoisFile Examples.merged_removal
                       (pr_extractedFilePath Examples.merged_removal
                          {| filename := "whois/example.no.kg.json"; status := "removed" |})
                       initial) = inr data).
Proof.
  apply (handlePRMerge_removed Examples.merged_removal "Remove example.no.kg" initial);
    [vm_compute; reflexivity | discriminate | reflexivity].
Defined.

(** ** Properties of an object *)

Lemma own_prop_set_prop_eq (k : string) (v : jsval) (props : list (string * jsval)) :
  own_prop k (set_prop k v props) = Some v.
Proof.
  induction props as [|[k' v'] props IH]; simpl.
  - now rewrite String.eqb_refl.
  - destruct (String.eqb k k') eqn:E; simpl; now rewrite E.
Qed.

Lemma own_prop_set_prop_ne (k k0 : string) (v : jsval) (props : list (string * jsval)) :
  k0 <> k -> own_prop k0 (set_prop k v props) = own_prop k0 props.
Proof.
  intros Hne. induction props as [|[k' v'] props IH]; simpl.
  - destruct (String.eqb_spec k0 k); [contradiction|reflexivity].
  - destruct (String.eqb_spec k k') as [->|Hk]; simpl.
    + destruct (String.eqb_spec k0 k'); [contradiction|reflexivity].
    + now rewrite IH.
Qed.

(** Setting a property leaves the others as they are, in their order. *)
Lemma set_prop_others (k : string) (v : jsval) (props : list (string * jsval)) :
  List.filter (fun kv => negb (String.eqb k (fst kv))) (set_prop k v props)
  = List.filter (fun kv => negb (String.eqb k (fst kv))) props.
Proof.
  induction props as [|[k' v'] props IH]; simpl.
  - now rewrite String.eqb_refl.
  - destruct (String.eqb k k') eqn:E; simpl; rewrite E; simpl; [reflexivity|].
    now rewrite IH.
Qed.

(** C9. For a descriptor file that was not removed, [handlePRMerge] sends
    the loaded descriptor to the DNS record manager: with an operation
    override other than [auto], its [operation] property holds the mapped
    override and every other property is as loaded; with [auto] or no
    override, the descriptor is sent as loaded. *)
Theorem handlePRMerge_loaded (w : World) (title : string)
    (files : list ChangedFile) (whoisFile : ChangedFile)
    (c : obj_class) (props : list (string * jsval)) (st st1 : State) :
  env w !! "PR_TITLE" = Some title ->
  title <> "" ->
  pr_files w = Some (inr files) ->
  extractWhoisFiles files = inr whoisFile ->
  status whoisFile <> "removed" ->
  readWhoisFile w (pr_filePath w whoisFile) st = (inr (VObj c props), st1) ->
  let operation := env_or (env w !! "OPERATION") "auto" in
  let sent :=
    if String.eqb operation "auto" then props
    else set_prop "operation" (mapOperationType operation) props in
  dispatched (events (snd (handlePRMerge w st)))
  = dispatched (events st) ++ [EvPRMerge title (VObj c sent)]
  /\ (operation = "auto" -> sent = props)
  /\ (operation <> "auto" ->
      own_prop "operation" sent = Some (mapOperationType operation)
      /\ (forall k, k <> "operation" -> own_prop k sent = own_prop k props)
      /\ List.filter (fun kv => negb (String.eqb "operation" (fst kv))) sent
         = List.filter (fun kv => negb (String.eqb "operation" (fst kv))) props).
Proof.
  intros Htitle Hne Hfiles Hextract Hstatus Hread operation sent.
  split; [|split].
  - unfold handlePRMerge. rewrite Htitle, Hfiles, (env_truthy_Some title Hne).
    cbv zeta. cbn [negb].
    unfold bind at 1. unfold try_catch at 1. unfold lift at 1.
    unfold bind at 1. unfold lift at 1. rewrite Hextract.
    destruct (String.eqb_spec (status whoisFile) "removed") as [|_]; [contradiction|].
    unfold bind at 1. rewrite Hread.
    pose proof (readWhoisFile_dispatches_nothing w (pr_filePath w whoisFile) st) as Hsame.
    rewrite Hread in Hsame. simpl snd in Hsame.
    fold operation. subst sent.
    destruct (String.eqb operation "auto"); cbn [negb].
    + unfold bind at 1, ret at 1. rewrite prMerge_then_write.
      unfold dispatched. now rewrite Hsame.
    + unfold bind at 1, lift at 1. cbn [set_field].
      rewrite prMerge_then_write. unfold dispatched. now rewrite Hsame.
  - intros Hauto. subst sent. now rewrite Hauto.
  - intros Hop. subst sent.
    destruct (String.eqb_spec operation "auto") as [|_]; [contradiction|].
    split; [apply own_prop_set_prop_eq|]. split.
    + intros k Hk. now apply own_prop_set_prop_ne.
    + apply set_prop_others.
Qed.

Lemma handlePRMerge_loaded_witness :
  dispatched (events (snd (handlePRMerge Examples.merged_addition initial)))
  = [EvPRMerge "Add example.no.kg"
       (VObj PlainObject [("domain", VStr "example"); ("sld", VStr "no.kg");
                          ("operation", VStr "update")])].
Proof.
  apply (proj1 (handlePRMerge_loaded Examples.merged_addition "Add example.no.kg"
                  [ {| filename := "whois/example.no.kg.json"; status := "added" |} ]
                  {| filename := "whois/example.no.kg.json"; status := "added" |}
                  PlainObject
                  [("domain", VStr "example"); ("sld", VStr "no.kg");
                   ("operation", VStr "registration")]
                  initial
                  (snd (readWhoisFile Examples.merged_addition
                          "whois/example.no.kg.json" initial))
                  ltac:(vm_compute; reflexivity)
                  ltac:(discriminate)
                  eq_refl
                  eq_refl
                  ltac:(discriminate)
                  ltac:(vm_compute; reflexivity))).
Defined.

(** C10. On a manual trigger with a domain string where neither read of a
    descriptor succeeds, the run reaches the DNS record manager exactly when
    [FORCE_SYNC] is [true] and the domain string parses; the descriptor it
    sends is the synthesized one, whose [operation] is the requested operation
    as given, while [operation] in the options is the mapped one. For [add]
    and [delete], which the table rewrites, the two differ. *)
Theorem handleManualTrigger_synthesized (w : World) (manualDomain : string) (st : State) :
  env w !! "MANUAL_DOMAIN" = Some manualDomain ->
  manualDomain <> "" ->
  (env_truthy (env w !! "MANUAL_WHOIS_FILE") = true ->
   forall st', exists e, fst (readWhoisFile w (manual_fullPath w) st') = inl e) ->
  (forall st', exists e, fst (readWhoisFile w (manual_domainFile w) st') = inl e) ->
  let operation := env_or (env w !! "MANUAL_OPERATION") "auto" in
  let forceSync := bool_decide (env w !! "FORCE_SYNC" = Some "true") in
  let synthesized (r : DomainReference) :=
    VObj PlainObject [("domain", VStr (domain r)); ("sld", VStr (sld r));
                      ("operation", VStr operation)] in
  let options :=
    VObj PlainObject [("operation", mapOperationType operation);
                      ("forceSync", VBool forceSync);
                      ("triggeredBy", VStr (env_or (env w !! "GITHUB_ACTOR") "unknown"))] in
  dispatched (events (snd (handleManualTrigger w st)))
  = dispatched (events st)
    ++ match forceSync, parseDomain (VStr manualDomain) with
       | true, inr r =>
           [EvManualSync (env_or (env w !! "PR_TITLE") "Manual DNS Sync")
              (synthesized r) options]
       | _, _ => []
       end
  /\ (forall r, get_field (synthesized r) "operation" = inr (VStr operation))
  /\ get_field options "operation" = inr (mapOperationType operation)
  /\ (operation = "add" \/ operation = "delete" ->
      mapOperationType operation <> VStr operation).
Proof.
  intros Hdomain Hne Hfile HdomainFile operation forceSync synthesized options.
  split; [|split; [|split]]; [|reflexivity|reflexivity|intros [->| ->]; discriminate].
  unfold handleManualTrigger. rewrite Hdomain, (env_truthy_Some _ Hne).
  cbv zeta. cbn [negb andb env_val]. fold operation forceSync.
  unfold bind at 1.
  assert (Hsecond : forall st1,
             dispatched (events st1) = dispatched (events st) ->
             dispatched (events (snd (
               (whoisData <-
                  try_catch (readWhoisFile w (manual_domainFile w))
                    (fun error =>
                       if forceSync then ret VNull
                       else throw (mkError ("Failed to read WHOIS file for domain "
                                            +:+ default "" (Some manualDomain) +:+ ": "
                                            +:+ message error))) ;;
                whoisData <-
                  (if negb (truthy whoisData) && true then
                     match parseDomain (VStr manualDomain) with
                     | inl e => throw e
                     | inr {| domain := domainName; sld := sld |} =>
                         ret (VObj PlainObject [("domain", VStr domainName);
                                                ("sld", VStr sld);
                                                ("operation", VStr operation)])
                     end
                   else ret whoisData) ;;
                result <-
                  dnsManager_handleManualSync w
                    (env_or (env w !! "PR_TITLE") "Manual DNS Sync") whoisData options ;;
                writeResultFile w result ;;; ret result) st1)))
             = dispatched (events st)
               ++ match forceSync, parseDomain (VStr manualDomain) with
                  | true, inr r =>
                      [EvManualSync (env_or (env w !! "PR_TITLE") "Manual DNS Sync")
                         (synthesized r) options]
                  | _, _ => []
                  end).
  { intros st1 Hst1. unfold bind at 1, try_catch at 1.
    pose proof (readWhoisFile_dispatches_nothing w (manual_domainFile w) st1) as Hsame.
    destruct (HdomainFile st1) as [e He].
    destruct (readWhoisFile w (manual_domainFile w) st1) as [[e'|data] st2];
      simpl in He, Hsame; [|discriminate].
    unfold dispatched in *. rewrite Hst1 in Hsame.
    destruct forceSync.
    - unfold ret at 1. cbn [truthy negb andb]. unfold bind at 1.
      destruct (parseDomain (VStr manualDomain)) as [e1|[domainName sld]].
      + unfold throw at 1. simpl snd. rewrite Hsame. now rewrite app_nil_r.
      + unfold ret at 1.
        pose proof (manualSync_then_write w (env_or (env w !! "PR_TITLE") "Manual DNS Sync")
                      (synthesized {| domain := domainName; sld := sld |}) options st2) as Hend.
        unfold dispatched in Hend. rewrite Hsame in Hend. exact Hend.
    - unfold throw at 1. simpl snd. rewrite Hsame. now rewrite app_nil_r. }
  destruct (env_truthy (env w !! "MANUAL_WHOIS_FILE")) eqn:HwhoisFile.
  - unfold try_catch at 1, bind at 1.
    pose proof (readWhoisFile_dispatches_nothing w (manual_fullPath w) st) as Hsame.
    destruct (Hfile eq_refl st) as [e He].
    destruct (readWhoisFile w (manual_fullPath w) st) as [[e'|data] st1];
      simpl in He, Hsame; [|discriminate].
    destruct forceSync eqn:Hforce.
    + unfold ret at 1. cbn [truthy negb andb]. apply Hsecond. exact Hsame.
    + unfold throw at 1. simpl snd. unfold dispatched. rewrite Hsame. now rewrite app_nil_r.
  - unfold ret at 1. cbn [truthy negb andb]. apply Hsecond. reflexivity.
Qed.

Lemma handleManualTrigger_synthesized_witness :
  dispatched (events (snd (handleManualTrigger Examples.manual_forced initial)))
  = [EvManualSync "Manual DNS Sync"
       (VObj PlainObject [("domain", VStr "example"); ("sld", VStr "no.kg");
                          ("operation", VStr "add")])
       (VObj PlainObject [("operation", VStr "registration");
                          ("forceSync", VBool true);
                          ("triggeredBy", VStr "octocat")])].
Proof.
  apply (proj1 (handleManualTrigger_synthesized Examples.manual_forced "example.no.kg" initial
                  ltac:(vm_compute; reflexivity)
                  ltac:(discriminate)
                  ltac:(vm_compute; discriminate)
                  ltac:(intros st'; eexists; vm_compute; reflexivity))).
Defined.

(** ** Sync orchestrator: the result file *)

Lemma persisted_log (e : event) (st : State) :
  persisted (events (log e st))
  = persisted (events st) ++ match written e with Some x => [x] | None => [] end.
Proof. apply omap_log. Qed.

Lemma persists_on_return_throw {A} (e : exn) : persists_on_return (@throw A e).
Proof. intros st. reflexivity. Qed.

Lemma persists_on_return_bind {A B} (m : M A) (k : A -> M B) :
  preserves written m ->
  (forall a, persists_on_return (k a)) ->
  persists_on_return (bind m k).
Proof.
  intros Hm Hk st. unfold bind. specialize (Hm st).
  destruct (m st) as [[e|a] st1]; simpl in Hm; [exact Hm|].
  specialize (Hk a st1). unfold persisted in *.
  destruct (k a st1) as [[e|b] st2]; now rewrite <- Hm.
Qed.

(** [writeResultFile] persists its record exactly when it returns. *)
Lemma writeResultFile_persists (w : World) (result : jsval) (st : State) :
  match writeResultFile w result st with
  | (inl _, st') => persisted (events st') = persisted (events st)
  | (inr _, st') =>
      exists timestamp,
        events st'
        = events st
          ++ [EvWriteFile "dns-sync-result.json"
                (VObj PlainObject
                   (spread [("timestamp", VStr timestamp)] (enumerable_props result)))]
  end.
Proof.
  unfold writeResultFile, try_catch, bind, toISOString_now, writeFile, throw.
  cbn [events clock_reads].
  destruct (fs_writeFile w (events st) _ _).
  - rewrite persisted_log. apply app_nil_r.
  - eexists. reflexivity.
Qed.

Lemma persists_on_return_write (w : World) (result : jsval) :
  persists_on_return (writeResultFile w result ;;; ret result).
Proof.
  intros st. unfold bind. pose proof (writeResultFile_persists w result st) as H.
  destruct (writeResultFile w result st) as [[e|[]] st1]; [exact H|].
  destruct H as [timestamp H]. unfold ret. cbv beta iota.
  unfold persisted. rewrite H, omap_app. eexists. reflexivity.
Qed.

Ltac persists_step :=
  first
    [ apply persists_on_return_throw
    | apply persists_on_return_write
    | apply persists_on_return_bind;
        [unfold readWhoisFile, read_and_parse; preserves_tac | intros ?]
    | match goal with
      | |- persists_on_return (if ?b then _ else _) => destruct b
      | |- persists_on_return (match ?x with _ => _ end) => destruct x
      end ].

Lemma handleManualTrigger_persists (w : World) : persists_on_return (handleManualTrigger w).
Proof. unfold handleManualTrigger. cbv zeta. repeat persists_step. Qed.

Lemma handlePRMerge_persists (w : World) : persists_on_return (handlePRMerge w).
Proof. unfold handlePRMerge. cbv zeta. repeat persists_step. Qed.

(** The path [handleSync] takes. *)
Lemma handleSync_path_persists (w : World) :
  persists_on_return
    (if String.eqb (determineTriggerType w) "manual" then handleManualTrigger w
     else handlePRMerge w).
Proof.
  destruct (String.eqb (determineTriggerType w) "manual");
    [apply handleManualTrigger_persists | apply handlePRMerge_persists].
Qed.

(** No run persists more than one record. *)
Lemma handleSync_persists_at_most_once (w : World) (st : State) :
  exists records,
    persisted (events (snd (handleSync w st))) = persisted (events st) ++ records
    /\ length records <= 1.
Proof.
  unfold handleSync, try_catch. cbv zeta.
  pose proof (handleSync_path_persists w st) as Hpath.
  destruct ((if String.eqb (determineTriggerType w) "manual" then handleManualTrigger w
             else handlePRMerge w) st) as [[error|result] st1].
  - unfold bind at 1, toISOString_now at 1. unfold bind at 1.
    match goal with
    | |- context [writeResultFile w ?r ?s] =>
        pose proof (writeResultFile_persists w r s) as Hwrite;
        destruct (writeResultFile w r s) as [[e|[]] st2]
    end.
    + exists []. simpl snd. rewrite Hwrite. cbn [events]. rewrite Hpath, app_nil_r.
      split; [reflexivity | simpl; lia].
    + destruct Hwrite as [timestamp Hwrite]. unfold throw. simpl snd.
      unfold persisted in *. rewrite Hwrite. cbn [events]. rewrite omap_app, Hpath.
      eexists. split; [reflexivity | simpl; lia].
  - destruct Hpath as [record Hpath]. exists [record]. split; [exact Hpath | simpl; lia].
Qed.

(** C4, as the code has it. No run of [handleSync] persists more than one
    record. In a world where writing the result file does not fail, every run
    persists exactly one record, when it returns and when it throws; when it
    throws, the record is the failure record of the error thrown, and writing
    it is the last thing the run did. *)
Theorem handleSync_persists_once (w : World) (st : State) :
  (exists records,
     persisted (events (snd (handleSync w st))) = persisted (events st) ++ records
     /\ length records <= 1)
  /\ ((forall evs path data, fs_writeFile w evs path data = None) ->
      exists record,
        persisted (events (snd (handleSync w st))) = persisted (events st) ++ [record]
        /\ (forall error, fst (handleSync w st) = inl error ->
            exists timestamp earlier,
              record = failure_record timestamp error (determineTriggerType w)
              /\ events (snd (handleSync w st))
                 = earlier ++ [EvWriteFile "dns-sync-result.json" record])).
Proof.
  split; [apply handleSync_persists_at_most_once|].
  intros Hwritable.
  unfold handleSync, try_catch. cbv zeta.
  pose proof (handleSync_path_persists w st) as Hpath.
  destruct ((if String.eqb (determineTriggerType w) "manual" then handleManualTrigger w
             else handlePRMerge w) st) as [[error|result] st1].
  - unfold bind, toISOString_now, writeResultFile, try_catch, bind, toISOString_now,
      writeFile, throw.
    cbn [events clock_reads]. rewrite Hwritable. cbn [fst snd].
    eexists. split.
    + rewrite persisted_log. cbn [events]. rewrite Hpath. reflexivity.
    + intros error' [= <-]. eexists. exists (events st1). split; reflexivity.
  - destruct Hpath as [record Hpath]. exists record. split; [exact Hpath|].
    intros error' [=].
Qed.

Lemma handleSync_persists_once_witness :
  exists record,
    persisted (events (snd (handleSync Examples.manual_no_input initial)))
    = persisted (events initial) ++ [record]
    /\ (forall error, fst (handleSync Examples.manual_no_input initial) = inl error ->
        exists timestamp earlier,
          record = failure_record timestamp error
                     (determineTriggerType Examples.manual_no_input)
          /\ events (snd (handleSync Examples.manual_no_input initial))
             = earlier ++ [EvWriteFile "dns-sync-result.json" record]).
Proof.
  apply (proj2 (handleSync_persists_once Examples.manual_no_input initial)).
  intros evs path data. reflexivity.
Defined.

(** C4 as stated fails where the result file cannot be written: the run
    throws, and no record has been persisted. *)
Lemma handleSync_unwritable_persists_nothing :
  fst (handleSync Examples.manual_no_input_readonly initial)
  = inl (Examples.EROFS "dns-sync-result.json")
  /\ persisted (events (snd (handleSync Examples.manual_no_input_readonly initial))) = []
  /\ ~ (exists record,
          persisted (events (snd (handleSync Examples.manual_no_input_readonly initial)))
          = persisted (events initial) ++ [record]).
Proof.
  repeat split. intros [record H]. vm_compute in H. discriminate.
Qed.

(** C8, as the code has it. A manual trigger that names neither a domain
    nor a descriptor file, in a world where the failure record can be written:
    the run throws [MissingManualInput], after it has persisted the failure
    record with [success] false, the message of that error, a timestamp and
    [triggerType] [manual]. *)
Theorem handleSync_missing_manual_input (w : World) (st : State) :
  determineTriggerType w = "manual" ->
  env_truthy (env w !! "MANUAL_DOMAIN") = false ->
  env_truthy (env w !! "MANUAL_WHOIS_FILE") = false ->
  let record := failure_record (now w (clock_reads st)) MissingManualInput "manual" in
  fs_writeFile w (events st) "dns-sync-result.json" record = None ->
  handleSync w st
  = (inl MissingManualInput,
     {| events := events st ++ [EvWriteFile "dns-sync-result.json" record];
        clock_reads := S (S (clock_reads st)) |})
  /\ message MissingManualInput <> "".
Proof.
  intros Htrigger Hdomain HwhoisFile record Hwrite.
  split; [|discriminate].
  unfold handleSync, try_catch. cbv zeta. rewrite Htrigger.
  change (String.eqb "manual" "manual") with true. cbv iota.
  unfold handleManualTrigger. cbv zeta. rewrite Hdomain, HwhoisFile.
  cbn [negb andb]. unfold throw at 1.
  unfold bind, toISOString_now, writeResultFile, try_catch, bind, toISOString_now,
    writeFile, throw.
  cbn [events clock_reads].
  change (VObj PlainObject (spread _ _)) with record.
  rewrite Hwrite. reflexivity.
Qed.

Lemma handleSync_missing_manual_input_witness :
  handleSync Examples.manual_no_input initial
  = (inl MissingManualInput,
     {| events :=
          [EvWriteFile "dns-sync-result.json"
             (failure_record "2025-01-01T00:00:00.000Z" MissingManualInput "manual")];
        clock_reads := 2 |}).
Proof.
  apply (proj1 (handleSync_missing_manual_input Examples.manual_no_input initial
                  ltac:(vm_compute; reflexivity) ltac:(vm_compute; reflexivity)
                  ltac:(vm_compute; reflexivity) ltac:(vm_compute; reflexivity))).
Defined.

(** C8 as stated fails where the result file cannot be written: the manual
    trigger without input then throws the error of the write, not
    [MissingManualInput], and no failure record has been persisted. *)
Lemma handleSync_missing_manual_input_unwritable :
  let w := Examples.manual_no_input_readonly in
  determineTriggerType w = "manual"
  /\ env w !! "MANUAL_DOMAIN" = None
  /\ env w !! "MANUAL_WHOIS_FILE" = None
  /\ handleSync w initial
     = (inl (Examples.EROFS "dns-sync-result.json"),
        {| events :=
             [EvWriteFailed "dns-sync-result.json"
                (failure_record "2025-01-01T00:00:00.000Z" MissingManualInput "manual")];
           clock_reads := 2 |})
  /\ fst (handleSync w initial) <> inl MissingManualInput
  /\ persisted (events (snd (handleSync w initial))) = [].
Proof. repeat split. vm_compute. discriminate. Qed.

(** * Further properties of the code *)

(** ** Domain parser: what a result says about the input *)

Lemma split_head_no_sep (sep : ascii) (s a : string) (rest : list string) :
  split sep s = a :: rest -> has_char sep a = false.
Proof.
  revert a rest. induction s as [|c s IH]; simpl; intros a rest H.
  - injection H as <- _. reflexivity.
  - destruct (Ascii.eqb c sep) eqn:E.
    + injection H as <- _. reflexivity.
    + destruct (split sep s) as [|p ps] eqn:Hs.
      * injection H as <- _. simpl. now rewrite E.
      * injection H as <- _. simpl. rewrite E. exact (IH p ps eq_refl).
Qed.

Lemma parseDomain_VStr_inv (s : string) (r : DomainReference) :
  parseDomain (VStr s) = inr r ->
  s <> ""
  /\ exists rest, rest <> [] /\ split "." (cleanDomain s) = domain r :: rest
                  /\ sld r = join "." rest.
Proof.
  intros H.
  assert (s <> "") as Hs by (intros ->; discriminate H).
  split; [exact Hs|].
  destruct (split "." (cleanDomain s)) as [|a rest] eqn:Hparts.
  - now destruct (split_not_nil "." (cleanDomain s)).
  - destruct rest as [|b rest].
    + unfold parseDomain in H.
      destruct (negb (truthy (VStr s)) || negb (is_string (VStr s))); [discriminate|].
      rewrite Hparts in H. discriminate.
    + rewrite (parseDomain_parts s a (b :: rest) Hs Hparts) in H by discriminate.
      injection H as <-. exists (b :: rest). repeat split. discriminate.
Qed.

(** X1. Whatever [parseDomain] returns was a non-empty string, and nothing
    of its cleaned form is lost: [domain], a dot and [sld] give it back, and
    [domain] has no dot. *)
Theorem parseDomain_roundtrip (input : jsval) (r : DomainReference) :
  parseDomain input = inr r ->
  exists s,
    input = VStr s /\ s <> ""
    /\ cleanDomain s = domain r +:+ "." +:+ sld r
    /\ has_char "." (domain r) = false.
Proof.
  intros H.
  destruct input as [| |b|n|s|c props|name];
    try (rewrite parseDomain_not_string in H by discriminate; discriminate).
  destruct (parseDomain_VStr_inv s r H) as (Hs & rest & Hrest & Hparts & Hsld).
  exists s. repeat split; [exact Hs| |exact (split_head_no_sep _ _ _ _ Hparts)].
  rewrite <- (join_split "." (cleanDomain s)), Hparts, Hsld.
  destruct rest as [|b rest]; [contradiction|]. reflexivity.
Qed.

Lemma parseDomain_roundtrip_witness :
  exists s,
    VStr "whois/new-dns-example.no.kg.json" = VStr s /\ s <> ""
    /\ cleanDomain s = "new-dns-example" +:+ "." +:+ "no.kg"
    /\ has_char "." "new-dns-example" = false.
Proof.
  apply (parseDomain_roundtrip (VStr "whois/new-dns-example.no.kg.json")
           {| domain := "new-dns-example"; sld := "no.kg" |}).
  reflexivity.
Defined.

Lemma parseDomain_same_clean (s s' : string) (r : DomainReference) :
  s' <> "" -> cleanDomain s' = cleanDomain s ->
  parseDomain (VStr s) = inr r -> parseDomain (VStr s') = inr r.
Proof.
  intros Hs' Hclean H.
  destruct (parseDomain_VStr_inv s r H) as (_ & rest & Hrest & Hparts & Hsld).
  rewrite <- Hclean in Hparts.
  rewrite (parseDomain_parts s' (domain r) rest Hs' Hparts Hrest), <- Hsld.
  now destruct r.
Qed.

(** X2. The file a manual trigger looks for under [whois/] is named so
    that [parseDomain] reads the same reference from the file name as from
    the domain string, for a domain string that is already clean. *)
Theorem parseDomain_manual_domainFile (w : World) (manualDomain : string)
    (r : DomainReference) :
  env w !! "MANUAL_DOMAIN" = Some manualDomain ->
  env_truthy (env w !! "WHOIS_FILE_PATH") = false ->
  cleanDomain manualDomain = manualDomain ->
  parseDomain (VStr manualDomain) = inr r ->
  manual_domainFile w = "whois/" +:+ manualDomain +:+ ".json"
  /\ parseDomain (VStr (manual_domainFile w)) = inr r.
Proof.
  intros Hdomain Hpath Hclean Hparse.
  assert (manual_domainFile w = "whois/" +:+ manualDomain +:+ ".json") as Hfile.
  { unfold manual_domainFile. cbv zeta. now rewrite Hpath, Hdomain. }
  split; [exact Hfile|]. rewrite Hfile.
  apply (parseDomain_same_clean manualDomain); [discriminate| |exact Hparse].
  now rewrite cleanDomain_descriptor_path.
Qed.

Lemma parseDomain_manual_domainFile_witness :
  manual_domainFile Examples.manual_forced = "whois/" +:+ "example.no.kg" +:+ ".json"
  /\ parseDomain (VStr (manual_domainFile Examples.manual_forced))
     = inr {| domain := "example"; sld := "no.kg" |}.
Proof.
  apply (parseDomain_manual_domainFile Examples.manual_forced "example.no.kg");
    [vm_compute; reflexivity | vm_compute; reflexivity | reflexivity | reflexivity].
Defined.

(** ** Change-set extractor: the shape of a descriptor path *)

Lemma startsWith_inv (p s : string) :
  startsWith p s = true -> s = p +:+ drop (String.length p) s.
Proof.
  revert s. induction p as [|c p IH]; intros s H; [reflexivity|].
  destruct s as [|d s]; [discriminate|]. simpl in H.
  apply andb_true_iff in H as [Hc Hp]. apply Ascii.eqb_eq in Hc. subst d.
  rewrite append_cons. simpl. f_equal. exact (IH s Hp).
Qed.

Lemma take_drop (n : nat) (s : string) : take n s +:+ drop n s = s.
Proof.
  revert s. induction n as [|n IH]; intros s; [reflexivity|].
  destruct s as [|c s]; [reflexivity|]. simpl. rewrite append_cons. now rewrite IH.
Qed.

Lemma endsWith_inv (q s : string) :
  endsWith q s = true -> s = take (String.length s - String.length q) s +:+ q.
Proof.
  unfold endsWith. intros H. apply andb_true_iff in H as [_ H].
  apply String.eqb_eq in H.
  remember (String.length s - String.length q) as n eqn:Hn. clear Hn.
  rewrite <- H. symmetry. apply take_drop.
Qed.

Lemma drop_add (p t : string) (n : nat) :
  drop (String.length p + n) (p +:+ t) = drop n t.
Proof. induction p as [|c p IH]; [reflexivity|]. rewrite append_cons. exact IH. Qed.

Lemma endsWith_app (q p t : string) :
  String.length q <= String.length t -> endsWith q (p +:+ t) = endsWith q t.
Proof.
  intros Hlen. unfold endsWith. rewrite length_append.
  replace (String.length p + String.length t - String.length q)
    with (String.length p + (String.length t - String.length q)) by lia.
  rewrite drop_add.
  destruct (Nat.leb_spec (String.length q) (String.length p + String.length t)); [|lia].
  destruct (Nat.leb_spec (String.length q) (String.length t)); [reflexivity|lia].
Qed.

(** A string under [whois/] that ends in [.json] has both around a name:
    the two do not overlap. *)
Lemma descriptor_path_inv (s : string) :
  startsWith "whois/" s = true -> endsWith ".json" s = true ->
  exists name, s = "whois/" +:+ name +:+ ".json".
Proof.
  intros Hp Hs. apply startsWith_inv in Hp. simpl String.length in Hp.
  set (t := drop 6 s) in *. clearbody t. subst s.
  assert (String.length ".json" <= String.length t) as Hlen.
  { destruct t as [|c1 [|c2 [|c3 [|c4 [|c5 t]]]]]; try discriminate Hs. simpl. lia. }
  rewrite endsWith_app in Hs by exact Hlen.
  apply endsWith_inv in Hs. eexists. now rewrite Hs at 1.
Qed.

(** X3. Every entry the extractors take as a descriptor is
    [whois/<name>.json] for some name: [parseDomain] works on that name
    alone, and the file read under [WHOIS_FILE_PATH] is [<name>.json]
    there. *)
Theorem whois_file_name (w : World) (file : ChangedFile) :
  is_whois_file file = true ->
  exists name,
    filename file = "whois/" +:+ name +:+ ".json"
    /\ cleanDomain (filename file) = name
    /\ pr_extractedFilePath w file
       = default "" (env w !! "WHOIS_FILE_PATH") +:+ "/" +:+ name +:+ ".json".
Proof.
  unfold is_whois_file. intros H. apply andb_true_iff in H as [Hp Hs].
  destruct (descriptor_path_inv _ Hp Hs) as [name Hname].
  exists name. split; [exact Hname|]. rewrite Hname. split.
  - apply cleanDomain_descriptor_path.
  - unfold pr_extractedFilePath. cbv zeta. rewrite Hname. reflexivity.
Qed.

Lemma whois_file_name_witness :
  exists name,
    "whois/example.no.kg.json" = "whois/" +:+ name +:+ ".json"
    /\ cleanDomain "whois/example.no.kg.json" = name
    /\ pr_extractedFilePath Scenarios.merged_external
         {| filename := "whois/example.no.kg.json"; status := "added" |}
       = default "" (env Scenarios.merged_external !! "WHOIS_FILE_PATH")
         +:+ "/" +:+ name +:+ ".json".
Proof.
  apply (whois_file_name Scenarios.merged_external
           {| filename := "whois/example.no.kg.json"; status := "added" |}).
  reflexivity.
Defined.

(** ** Change-set extractor: what a returned entry is *)

Lemma extractWhoisFiles_inv (files : list ChangedFile) (file : ChangedFile) :
  extractWhoisFiles files = inr file -> List.filter is_whois_file files = [file].
Proof.
  unfold extractWhoisFiles. cbv zeta.
  destruct (List.filter is_whois_file files) as [|f [|g rest]]; simpl; intros H;
    [discriminate | now injection H as -> | discriminate].
Qed.

Lemma extractNonRemovedWhoisFiles_inv (files : list ChangedFile) (file : ChangedFile) :
  extractNonRemovedWhoisFiles files = inr file ->
  List.filter is_non_removed_whois_file files = [file].
Proof.
  unfold extractNonRemovedWhoisFiles. cbv zeta.
  destruct (List.filter is_non_removed_whois_file files) as [|f [|g rest]]; simpl; intros H;
    [discriminate | now injection H as -> | discriminate].
Qed.

Lemma filter_singleton_unique {A} (f : A -> bool) (l : list A) (x y : A) :
  List.filter f l = [x] -> In y l -> f y = true -> y = x.
Proof.
  intros H Hin Hf.
  assert (In y (List.filter f l)) as Hy by (apply filter_In; now split).
  rewrite H in Hy. destruct Hy as [->|[]]. reflexivity.
Qed.

(** X4. An entry an extractor returns is an entry of the change-set, a
    descriptor path, and the only descriptor path in it (for
    [extractNonRemovedWhoisFiles]: not removed, and the only one not
    removed). *)
Theorem extract_sound (files : list ChangedFile) (file : ChangedFile) :
  (extractWhoisFiles files = inr file ->
   In file files /\ is_whois_file file = true
   /\ forall other, In other files -> is_whois_file other = true -> other = file)
  /\ (extractNonRemovedWhoisFiles files = inr file ->
      In file files /\ is_whois_file file = true /\ status file <> "removed"
      /\ forall other, In other files -> is_whois_file other = true ->
                       status other <> "removed" -> other = file).
Proof.
  split; intros H.
  - apply extractWhoisFiles_inv in H.
    assert (In file (List.filter is_whois_file files)) as Hin by (rewrite H; now left).
    apply filter_In in Hin as [Hin Hw]. repeat split; [assumption..|].
    intros other Ho Hwo. exact (filter_singleton_unique _ _ _ _ H Ho Hwo).
  - apply extractNonRemovedWhoisFiles_inv in H.
    assert (In file (List.filter is_non_removed_whois_file files)) as Hin
        by (rewrite H; now left).
    apply filter_In in Hin as [Hin Hw].
    unfold is_non_removed_whois_file in Hw. fold (is_whois_file file) in Hw.
    apply andb_true_iff in Hw as [Hw Hst].
    repeat split; [assumption..| |].
    + intros Heq. rewrite Heq in Hst. discriminate.
    + intros other Ho Hwo Hso.
      apply (filter_singleton_unique _ _ _ _ H Ho).
      unfold is_non_removed_whois_file. fold (is_whois_file other). rewrite Hwo.
      destruct (String.eqb_spec (status other) "removed"); [contradiction|reflexivity].
Qed.

Lemma extract_sound_witness :
  let files := [ {| filename := "README.md"; status := "modified" |};
                 {| filename := "whois/example.no.kg.json"; status := "added" |} ] in
  let file := {| filename := "whois/example.no.kg.json"; status := "added" |} in
  In file files /\ is_whois_file file = true
  /\ forall other, In other files -> is_whois_file other = true -> other = file.
Proof.
  intros files file. apply (proj1 (extract_sound files file)). reflexivity.
Defined.

(** X5. When [extractWhoisFiles] returns an entry, [extractNonRemovedWhoisFiles]
    returns the same entry if it was not removed, and finds no descriptor if
    it was. *)
Theorem extract_agree (files : list ChangedFile) (file : ChangedFile) :
  extractWhoisFiles files = inr file ->
  extractNonRemovedWhoisFiles files
  = if String.eqb (status file) "removed"
    then inl (mkError "No non-removed whois files found in PR changes")
    else inr file.
Proof.
  intros H. apply extractWhoisFiles_inv in H.
  unfold extractNonRemovedWhoisFiles. cbv zeta.
  rewrite filter_non_removed, H. simpl.
  now destruct (String.eqb (status file) "removed").
Qed.

Lemma extract_agree_witness :
  extractNonRemovedWhoisFiles
    [ {| filename := "whois/example.no.kg.json"; status := "removed" |} ]
  = inl (mkError "No non-removed whois files found in PR changes").
Proof.
  apply (extract_agree [ {| filename := "whois/example.no.kg.json"; status := "removed" |} ]
           {| filename := "whois/example.no.kg.json"; status := "removed" |}).
  reflexivity.
Defined.

(** ** Operation mapper: every name *)

Lemma own_prop_not_in (k : string) (props : list (string * jsval)) :
  ~ In k (map fst props) -> own_prop k props = None.
Proof.
  induction props as [|[k' v] props IH]; simpl; intros H; [reflexivity|].
  destruct (String.eqb_spec k k') as [->|_]; [tauto|]. apply IH. tauto.
Qed.

(** Every name is in the table, or inherited, or neither. *)
Lemma mapOperationType_cases (operation : string) :
  (own_prop operation Object_prototype = None
   /\ exists s, mapOperationType operation = VStr s /\ mapOperationType s = VStr s)
  \/ (exists name, own_prop operation Object_prototype = Some (VBuiltin name)
                   /\ mapOperationType operation = VBuiltin name).
Proof.
  destruct (in_dec string_dec operation (map fst operationMap)) as [Hin|Hout].
  - left. simpl in Hin.
    repeat (destruct Hin as [<-|Hin];
            [split; [reflexivity | eexists; split; vm_compute; reflexivity]|]).
    destruct Hin.
  - destruct (in_dec string_dec operation (map fst Object_prototype)) as [Hin|Hout'].
    + right. simpl in Hin.
      repeat (destruct Hin as [<-|Hin]; [eexists; split; vm_compute; reflexivity|]).
      destruct Hin.
    + left. pose proof (own_prop_not_in _ _ Hout) as H1.
      pose proof (own_prop_not_in _ _ Hout') as H2.
      split; [exact H2|]. exists operation.
      split; apply mapOperationType_passthrough; assumption.
Qed.

(** X6. Mapping is idempotent on every name [Object.prototype] does not
    define: the result is a string, and mapping that string again changes
    nothing. *)
Theorem mapOperationType_idempotent (operation : string) :
  own_prop operation Object_prototype = None ->
  exists mapped,
    mapOperationType operation = VStr mapped
    /\ mapOperationType mapped = VStr mapped.
Proof.
  intros H. destruct (mapOperationType_cases operation) as [[_ Hs]|[name [Hn _]]];
    [exact Hs | congruence].
Qed.

Lemma mapOperationType_idempotent_witness :
  exists mapped,
    mapOperationType "delete" = VStr mapped /\ mapOperationType mapped = VStr mapped.
Proof. apply (mapOperationType_idempotent "delete"). reflexivity. Defined.

(** X7. [mapOperationType] returns a string exactly for the names
    [Object.prototype] does not define; for each of the others it returns the
    built-in found there. *)
Theorem mapOperationType_string_iff (operation : string) :
  ((exists s, mapOperationType operation = VStr s)
   <-> own_prop operation Object_prototype = None)
  /\ (forall builtin, own_prop operation Object_prototype = Some builtin ->
                      mapOperationType operation = builtin).
Proof.
  destruct (mapOperationType_cases operation) as [[Hnone (s & Hs & _)]|(name & Hn & Hm)].
  - split; [split; [intros _; exact Hnone | intros _; now exists s]|].
    intros builtin Hb. congruence.
  - split.
    + split; [intros [s Hs]; congruence | intros Hnone; congruence].
    + intros builtin Hb. congruence.
Qed.

(** ** Descriptor loader: what it reads and what it reports *)

Lemma state_eta (st : State) :
  st = {| events := events st ++ []; clock_reads := clock_reads st |}.
Proof. destruct st. simpl. now rewrite app_nil_r. Qed.

Lemma alternative_events_spec (w : World) (path : string) :
  Forall (fun e => e = EvAccess path \/ e = EvReadFile path) (alternative_events w path)
  /\ 1 <= length (alternative_events w path) <= 2.
Proof.
  unfold alternative_events. destruct (fs_access w path); simpl; (split; [|lia]).
  - constructor; [now left | constructor].
  - constructor; [now left|]. constructor; [now right | constructor].
Qed.

(** The reads of one call of [readWhoisFile]. *)
Lemma readWhoisFile_reads (w : World) (filePath : string) (st : State) :
  exists reads,
    snd (readWhoisFile w filePath st)
    = {| events := events st ++ reads; clock_reads := clock_reads st |}
    /\ Forall (fun e => exists c, In c (candidates w filePath)
                                  /\ (e = EvAccess c \/ e = EvReadFile c)) reads
    /\ 1 <= length reads <= 5.
Proof.
  unfold candidates.
  destruct (fs_access w (fullPath w filePath)) as [e0|] eqn:Hacc.
  - assert (fs_access w (fullPath w filePath) <> None) as Hne by congruence.
    rewrite (readWhoisFile_alternatives w filePath st Hne).
    destruct (alternative_events_spec w (altPath1 w filePath)) as [H1 L1].
    destruct (alternative_events_spec w (altPath2 w filePath)) as [H2 L2].
    destruct (alternative w (altPath1 w filePath)).
    + eexists. split; [reflexivity|]. split.
      * constructor; [exists (fullPath w filePath); simpl; auto|].
        eapply Forall_impl; [exact H1|]. intros e He. exists (altPath1 w filePath).
        simpl. auto.
      * simpl. lia.
    + eexists. split; [reflexivity|]. split.
      * constructor; [exists (fullPath w filePath); simpl; auto|].
        apply Forall_app. split.
        -- eapply Forall_impl; [exact H1|]. intros e He. exists (altPath1 w filePath).
           simpl. auto.
        -- eapply Forall_impl; [exact H2|]. intros e He. exists (altPath2 w filePath).
           simpl. auto.
      * simpl. rewrite length_app. lia.
  - rewrite (readWhoisFile_primary w filePath st Hacc), log_log.
    eexists. split; [reflexivity|]. split.
    + repeat constructor; exists (fullPath w filePath); simpl; auto.
    + simpl. lia.
Qed.

(** X8. A call of [readWhoisFile] does nothing but ask the file system
    about its three candidate locations: between one and five [access] and
    [readFile] calls, each on a candidate, and the clock is not read. *)
Theorem readWhoisFile_consults_candidates (w : World) (filePath : string) (st : State) :
  exists reads,
    snd (readWhoisFile w filePath st)
    = {| events := events st ++ reads; clock_reads := clock_reads st |}
    /\ Forall (fun e => exists c, In c (candidates w filePath)
                                  /\ (e = EvAccess c \/ e = EvReadFile c)) reads
    /\ 1 <= length reads <= 5.
Proof. apply readWhoisFile_reads. Qed.

(** X9. Once [fs.access] succeeds at the first location the alternatives
    are out of the picture, also when the file then cannot be read: JSON text
    is returned parsed; text that is not JSON is [Invalid JSON format]; a
    read error with code [ENOENT] is [Whois file not found]; any other plain
    read error is [Failed to read whois file] with the message of the
    error. *)
Theorem readWhoisFile_first_location (w : World) (filePath : string) (st : State) :
  fs_access w (fullPath w filePath) = None ->
  snd (readWhoisFile w filePath st)
  = {| events := events st ++ [EvAccess (fullPath w filePath);
                               EvReadFile (fullPath w filePath)];
       clock_reads := clock_reads st |}
  /\ (forall v, fs_readFile w (fullPath w filePath) = inr (JsonText v) ->
                fst (readWhoisFile w filePath st) = inr v)
  /\ (forall raw, fs_readFile w (fullPath w filePath) = inr (BadText raw) ->
                  fst (readWhoisFile w filePath st)
                  = inl (mkError ("Invalid JSON format in whois file: " +:+ filePath)))
  /\ (forall e, fs_readFile w (fullPath w filePath) = inl e ->
                exn_code e = Some "ENOENT" ->
                fst (readWhoisFile w filePath st)
                = inl (mkError ("Whois file not found: " +:+ filePath)))
  /\ (forall e, fs_readFile w (fullPath w filePath) = inl e ->
                exn_code e <> Some "ENOENT" -> exn_cls e = ClsError ->
                fst (readWhoisFile w filePath st)
                = inl (mkError ("Failed to read whois file " +:+ filePath +:+ ": "
                                +:+ message e))).
Proof.
  intros Hacc. rewrite (readWhoisFile_primary w filePath st Hacc), log_log.
  split; [reflexivity|]. cbn [fst].
  repeat split.
  - intros v ->. reflexivity.
  - intros raw ->. reflexivity.
  - intros e -> Hcode. rewrite bool_decide_eq_true_2 by exact Hcode. reflexivity.
  - intros e -> Hcode Hcls. rewrite bool_decide_eq_false_2 by exact Hcode.
    now rewrite Hcls.
Qed.

Lemma readWhoisFile_first_location_witness :
  let w := Examples.runner []
             [("/home/runner/work/repo/repo/.github/whois/a.b.json", BadText "oops")]
             None true in
  fst (readWhoisFile w "whois/a.b.json" initial)
  = inl (mkError ("Invalid JSON format in whois file: " +:+ "whois/a.b.json")).
Proof.
  intros w.
  apply (proj1 (proj2 (proj2 (readWhoisFile_first_location w "whois/a.b.json" initial
                                eq_refl))) "oops").
  reflexivity.
Defined.

(** X10. When [fs.access] fails at all three locations, [readWhoisFile]
    has made exactly these three calls, in order, and throws a plain [Error]
    whose message is the not-found message wrapped in the read-failure
    one. *)
Theorem readWhoisFile_nowhere (w : World) (filePath : string) (st : State) :
  (forall c, In c (candidates w filePath) -> fs_access w c <> None) ->
  readWhoisFile w filePath st
  = (inl (mkError ("Failed to read whois file " +:+ filePath +:+ ": "
                   +:+ "Whois file not found at any path: " +:+ filePath)),
     {| events := events st ++ map EvAccess (candidates w filePath);
        clock_reads := clock_reads st |}).
Proof.
  intros H. unfold candidates in *.
  assert (fs_access w (fullPath w filePath) <> None) as H0 by (apply H; simpl; auto).
  assert (fs_access w (altPath1 w filePath) <> None) as H1 by (apply H; simpl; auto).
  assert (fs_access w (altPath2 w filePath) <> None) as H2 by (apply H; simpl; auto).
  rewrite (readWhoisFile_alternatives w filePath st H0).
  unfold alternative, alternative_events.
  destruct (fs_access w (altPath1 w filePath)); [|congruence].
  destruct (fs_access w (altPath2 w filePath)); [|congruence].
  reflexivity.
Qed.

Lemma readWhoisFile_nowhere_witness :
  readWhoisFile Examples.manual_forced "whois/example.no.kg.json" initial
  = (inl (mkError ("Failed to read whois file " +:+ "whois/example.no.kg.json" +:+ ": "
                   +:+ "Whois file not found at any path: " +:+ "whois/example.no.kg.json")),
     {| events := events initial
                  ++ map EvAccess (candidates Examples.manual_forced "whois/example.no.kg.json");
        clock_reads := clock_reads initial |}).
Proof.
  apply (readWhoisFile_nowhere Examples.manual_forced "whois/example.no.kg.json" initial).
  intros c [<-|[<-|[<-|[]]]]; vm_compute; discriminate.
Defined.

(** X11. [fileExists] never throws and answers whether [fs.access]
    succeeds; a descriptor [readWhoisFile] returns is the parsed text of a
    candidate location for which [fileExists] answers true. *)
Theorem readWhoisFile_sound (w : World) (filePath : string) (v : jsval) (st : State) :
  (forall path st0,
     fileExists w path st0
     = (inr (bool_decide (fs_access w path = None)), log (EvAccess path) st0))
  /\ (fst (readWhoisFile w filePath st) = inr v ->
      exists c,
        In c (candidates w filePath)
        /\ (forall st0, fst (fileExists w c st0) = inr true)
        /\ fs_readFile w c = inr (JsonText v)).
Proof.
  assert (forall path st0,
            fileExists w path st0
            = (inr (bool_decide (fs_access w path = None)), log (EvAccess path) st0)) as Hexists.
  { intros path st0. unfold fileExists, try_catch, bind, access, ret.
    destruct (fs_access w path); reflexivity. }
  split; [exact Hexists|].
  intros Hv.
  assert (forall c, fs_access w c = None -> forall st0, fst (fileExists w c st0) = inr true)
    as Hyes.
  { intros c Hc st0. rewrite Hexists. simpl. now rewrite bool_decide_eq_true_2. }
  unfold candidates.
  destruct (fs_access w (fullPath w filePath)) as [e0|] eqn:Hacc.
  - assert (fs_access w (fullPath w filePath) <> None) as Hne by congruence.
    rewrite (readWhoisFile_alternatives w filePath st Hne) in Hv.
    unfold alternative in Hv.
    destruct (fs_access w (altPath1 w filePath)) as [e1|] eqn:H1;
      [|destruct (fs_readFile w (altPath1 w filePath)) as [e1|[v1|raw1]] eqn:R1];
      try (simpl in Hv; injection Hv as <-; exists (altPath1 w filePath);
           split; [simpl; auto | split; [now apply Hyes | assumption]]);
      (destruct (fs_access w (altPath2 w filePath)) as [e2|] eqn:H2;
       [|destruct (fs_readFile w (altPath2 w filePath)) as [e2|[v2|raw2]] eqn:R2]);
      simpl in Hv; try discriminate Hv;
      injection Hv as <-; exists (altPath2 w filePath);
      (split; [simpl; auto | split; [now apply Hyes | assumption]]).
  - rewrite (readWhoisFile_primary w filePath st Hacc) in Hv. simpl in Hv.
    exists (fullPath w filePath). split; [simpl; auto|]. split; [now apply Hyes|].
    destruct (fs_readFile w (fullPath w filePath)) as [e|[v0|raw]].
    + destruct (bool_decide (exn_code e = Some "ENOENT")); [discriminate|].
      destruct (exn_cls e); discriminate.
    + now injection Hv as <-.
    + discriminate.
Qed.

Lemma readWhoisFile_sound_witness :
  exists c,
    In c (candidates Examples.merged_addition "whois/example.no.kg.json")
    /\ (forall st0, fst (fileExists Examples.merged_addition c st0) = inr true)
    /\ fs_readFile Examples.merged_addition c = inr (JsonText Examples.descriptor).
Proof.
  apply (proj2 (readWhoisFile_sound Examples.merged_addition "whois/example.no.kg.json"
                  Examples.descriptor initial)).
  vm_compute. reflexivity.
Defined.

(** X26. The locations are tried in the order of [candidates]. When the
    first of them at which [fs.access] succeeds can be read and holds JSON
    text, its parsed content is returned, and the calls made are the
    [access] of each location before it, in order, then the [access] and the
    [readFile] of it: no later location is asked about. *)
Theorem readWhoisFile_first_readable (w : World) (filePath : string)
    (earlier later : list string) (found : string) (v : jsval) (st : State) :
  candidates w filePath = earlier ++ found :: later ->
  (forall p, In p earlier -> fs_access w p <> None) ->
  fs_access w found = None ->
  fs_readFile w found = inr (JsonText v) ->
  readWhoisFile w filePath st
  = (inr v,
     {| events := events st ++ map EvAccess earlier
                             ++ [EvAccess found; EvReadFile found];
        clock_reads := clock_reads st |}).
Proof.
  intros Hcand Hearlier Hacc Hread.
  unfold candidates in Hcand.
  destruct earlier as [|p1 [|p2 [|p3 earlier]]]; simpl in Hcand.
  - injection Hcand as <- _.
    rewrite (readWhoisFile_primary w filePath st Hacc), Hread. now rewrite log_log.
  - injection Hcand as <- <- _.
    rewrite readWhoisFile_alternatives by (apply Hearlier; now left).
    unfold alternative, alternative_events. now rewrite Hacc, Hread.
  - injection Hcand as <- <- <- _.
    assert (fs_access w (fullPath w filePath) <> None) as H1 by (apply Hearlier; now left).
    assert (fs_access w (altPath1 w filePath) <> None) as H2
        by (apply Hearlier; right; now left).
    rewrite (readWhoisFile_alternatives w filePath st H1).
    unfold alternative, alternative_events. rewrite Hacc, Hread.
    destruct (fs_access w (altPath1 w filePath)); [|congruence]. reflexivity.
  - injection Hcand as _ _ _ Hnil. destruct earlier; discriminate.
Qed.

Lemma readWhoisFile_first_readable_witness :
  readWhoisFile Scenarios.descriptor_outside "whois/example.no.kg.json" initial
  = (inr Examples.descriptor,
     {| events :=
          [ EvAccess "/home/runner/work/repo/repo/.github/whois/example.no.kg.json";
            EvAccess "/home/runner/work/whois/example.no.kg.json";
            EvReadFile "/home/runner/work/whois/example.no.kg.json" ];
        clock_reads := 0 |}).
Proof.
  apply (readWhoisFile_first_readable Scenarios.descriptor_outside
           "whois/example.no.kg.json"
           [ "/home/runner/work/repo/repo/.github/whois/example.no.kg.json" ]
           [ Examples.descriptor_path ]
           "/home/runner/work/whois/example.no.kg.json" Examples.descriptor initial
           eq_refl
           ltac:(intros p [<-|[]]; vm_compute; discriminate)
           eq_refl eq_refl).
Defined.

(** ** Paths *)

Lemma resolve_absolute_last (cwd0 : string) (before : list string) (p : string) :
  Path.isAbsolute p = true ->
  Path.resolve cwd0 (before ++ [p]) = "/" +:+ Path.normalizeString (p +:+ "/") false.
Proof.
  intros Habs. unfold Path.resolve.
  change (cwd0 :: before ++ [p]) with ((cwd0 :: before) ++ [p]).
  rewrite rev_app_distr. simpl rev at 1. simpl app.
  unfold Path.resolve_loop.
  assert (String.eqb p "" = false) as -> by (destruct p; [discriminate|reflexivity]).
  rewrite Habs. reflexivity.
Qed.

(** X12. For an absolute descriptor path, which is what an absolute
    [WHOIS_FILE_PATH] gives, the second and the third candidate location are
    the same: the normalized path itself, whatever the working directory; it
    is also what [getFullPath] returns for it under any base directory. *)
Theorem absolute_path_candidates (w : World) (filePath : string) :
  Path.isAbsolute filePath = true ->
  altPath1 w filePath = "/" +:+ Path.normalizeString (filePath +:+ "/") false
  /\ altPath2 w filePath = altPath1 w filePath
  /\ (forall baseDir, getFullPath w filePath baseDir = altPath1 w filePath)
  /\ (forall whoisFilePath file,
        env w !! "WHOIS_FILE_PATH" = Some whoisFilePath ->
        Path.isAbsolute whoisFilePath = true ->
        Path.isAbsolute (pr_filePath w file) = true).
Proof.
  intros Habs.
  pose proof (resolve_absolute_last (cwd w) [cwd w; "../../"] filePath Habs) as H1.
  pose proof (resolve_absolute_last (cwd w) [cwd w] filePath Habs) as H2.
  repeat split.
  - exact H1.
  - unfold altPath1, altPath2. simpl app in H1, H2. now rewrite H1, H2.
  - intros baseDir. unfold getFullPath, altPath1. simpl app in H1. rewrite H1.
    exact (resolve_absolute_last (cwd w) [default (cwd w) baseDir] filePath Habs).
  - intros whoisFilePath file Henv Hp. unfold pr_filePath. rewrite Henv.
    destruct whoisFilePath as [|c rest]; [discriminate|].
    simpl env_truthy. cbv iota. simpl default. rewrite append_cons.
    unfold Path.isAbsolute in *. simpl in *. exact Hp.
Qed.

Lemma absolute_path_candidates_witness :
  altPath2 Scenarios.merged_external "/tmp/whois-files/example.no.kg.json"
  = altPath1 Scenarios.merged_external "/tmp/whois-files/example.no.kg.json".
Proof.
  apply (proj1 (proj2 (absolute_path_candidates Scenarios.merged_external
                         "/tmp/whois-files/example.no.kg.json" eq_refl))).
Defined.

(** ** Result file: what the record holds *)

Lemma own_prop_app (k : string) (l1 l2 : list (string * jsval)) :
  own_prop k (l1 ++ l2)
  = match own_prop k l1 with Some v => Some v | None => own_prop k l2 end.
Proof.
  induction l1 as [|[k' v] l1 IH]; simpl; [reflexivity|].
  now destruct (String.eqb k k').
Qed.

Lemma own_prop_set_prop (k k1 : string) (v1 : jsval) (props : list (string * jsval)) :
  own_prop k (set_prop k1 v1 props)
  = if String.eqb k k1 then Some v1 else own_prop k props.
Proof.
  destruct (String.eqb_spec k k1) as [->|Hne].
  - apply own_prop_set_prop_eq.
  - now apply own_prop_set_prop_ne.
Qed.

(** A spread gives each key its last value in the source, else what the
    target had. *)
Lemma own_prop_spread (k : string) (target source : list (string * jsval)) :
  own_prop k (spread target source)
  = match last_prop k source with
    | Some v => Some v
    | None => own_prop k target
    end.
Proof.
  unfold spread, last_prop. revert target.
  induction source as [|[k1 v1] source IH]; intros target; [reflexivity|].
  simpl fold_left. rewrite IH. simpl rev. rewrite own_prop_app, own_prop_set_prop.
  destruct (own_prop k (rev source)); [reflexivity|].
  simpl. now destruct (String.eqb k k1).
Qed.

(** With every key once, as in an object, the last value is the value. *)
Lemma last_prop_NoDup (k : string) (props : list (string * jsval)) :
  NoDup (map fst props) -> last_prop k props = own_prop k props.
Proof.
  unfold last_prop. induction props as [|[k1 v1] props IH]; intros Hnd; [reflexivity|].
  simpl in Hnd. apply NoDup_cons in Hnd as [Hk1 Hnd].
  simpl rev. rewrite own_prop_app, (IH Hnd). simpl.
  destruct (String.eqb_spec k k1) as [->|Hne].
  - rewrite own_prop_not_in; [reflexivity|].
    intros Hin. apply Hk1. now apply list_elem_of_In.
  - now destruct (own_prop k props).
Qed.

(** One call of [writeResultFile]: the clock, then the write. *)
Lemma writeResultFile_run (w : World) (result : jsval) (st : State) :
  let record := stamped (now w (clock_reads st)) result in
  let outcome := fs_writeFile w (events st) "dns-sync-result.json" record in
  writeResultFile w result st
  = (match outcome with None => inr tt | Some e => inl e end,
     {| events := events st
                  ++ [match outcome with
                      | None => EvWriteFile "dns-sync-result.json" record
                      | Some _ => EvWriteFailed "dns-sync-result.json" record
                      end];
        clock_reads := S (clock_reads st) |}).
Proof.
  intros record outcome.
  unfold writeResultFile, try_catch, bind, toISOString_now, writeFile, throw, log.
  cbn [events clock_reads]. fold (stamped (now w (clock_reads st)) result).
  fold record. fold outcome. destruct outcome; reflexivity.
Qed.

(** X13. [writeResultFile] reads the clock once and makes one write
    attempt, rethrowing its error; the record it writes holds every property
    of the result with its value, and a [timestamp]: the one of the result
    when it has one, the clock's otherwise. *)
Theorem writeResultFile_record (w : World) (result : jsval) (st : State) :
  let timestamp := now w (clock_reads st) in
  let record :=
    spread [("timestamp", VStr timestamp)] (enumerable_props result) in
  let outcome := fs_writeFile w (events st) "dns-sync-result.json" (VObj PlainObject record) in
  writeResultFile w result st
  = (match outcome with None => inr tt | Some e => inl e end,
     {| events := events st
                  ++ [match outcome with
                      | None => EvWriteFile "dns-sync-result.json" (VObj PlainObject record)
                      | Some _ => EvWriteFailed "dns-sync-result.json" (VObj PlainObject record)
                      end];
        clock_reads := S (clock_reads st) |})
  /\ (NoDup (map fst (enumerable_props result)) ->
      forall k,
        own_prop k record
        = match own_prop k (enumerable_props result) with
          | Some v => Some v
          | None => if String.eqb k "timestamp" then Some (VStr timestamp) else None
          end).
Proof.
  intros timestamp record outcome. split.
  - exact (writeResultFile_run w result st).
  - intros Hnd k. subst record. rewrite own_prop_spread, (last_prop_NoDup _ _ Hnd).
    reflexivity.
Qed.

Lemma writeResultFile_record_witness :
  own_prop "domain"
    (spread [("timestamp", VStr (now Examples.manual_no_input 0))]
       (enumerable_props Examples.descriptor))
  = Some (VStr "example")
  /\ own_prop "timestamp"
       (spread [("timestamp", VStr (now Examples.manual_no_input 0))]
          (enumerable_props Examples.descriptor))
     = Some (VStr (now Examples.manual_no_input 0)).
Proof.
  split.
  - apply (proj2 (writeResultFile_record Examples.manual_no_input Examples.descriptor initial)
             ltac:(apply (bool_decide_unpack _); vm_compute; exact I) "domain").
  - apply (proj2 (writeResultFile_record Examples.manual_no_input Examples.descriptor initial)
             ltac:(apply (bool_decide_unpack _); vm_compute; exact I) "timestamp").
Defined.

(** ** The shape of a run *)

Section Shape.

Variable w : World.

Lemma reads_only_ret {A} (a : A) : reads_only (ret a).
Proof. intros st. exists []. split; [constructor | apply state_eta]. Qed.

Lemma reads_only_throw {A} (e : exn) : reads_only (@throw A e).
Proof. intros st. exists []. split; [constructor | apply state_eta]. Qed.

Lemma reads_only_lift {A} (r : exn + A) : reads_only (lift r).
Proof. intros st. exists []. split; [constructor | apply state_eta]. Qed.

Lemma reads_only_seq {A B} (m : M A) (k : (exn + A) -> M B) :
  reads_only m -> (forall r, reads_only (k r)) ->
  reads_only (fun st => k (fst (m st)) (snd (m st))).
Proof.
  intros Hm Hk st. destruct (Hm st) as (reads1 & Hr1 & Hst1).
  destruct (Hk (fst (m st)) (snd (m st))) as (reads2 & Hr2 & Hst2).
  exists (reads1 ++ reads2). split; [now apply Forall_app|].
  rewrite Hst2, Hst1. simpl. now rewrite app_assoc.
Qed.

Lemma reads_only_bind {A B} (m : M A) (k : A -> M B) :
  reads_only m -> (forall a, reads_only (k a)) -> reads_only (bind m k).
Proof.
  intros Hm Hk st.
  destruct (reads_only_seq m (fun r => match r with inr a => k a | inl e => throw e end) Hm
              ltac:(intros [e|a]; [apply reads_only_throw | apply Hk]) st)
    as (reads & Hr & Hst).
  exists reads. split; [exact Hr|]. rewrite <- Hst. unfold bind.
  destruct (m st) as [[e|a] st1]; reflexivity.
Qed.

Lemma reads_only_try_catch {A} (m : M A) (handler : exn -> M A) :
  reads_only m -> (forall e, reads_only (handler e)) -> reads_only (try_catch m handler).
Proof.
  intros Hm Hh st.
  destruct (reads_only_seq m (fun r => match r with inr a => ret a | inl e => handler e end) Hm
              ltac:(intros [e|a]; [apply Hh | apply reads_only_ret]) st)
    as (reads & Hr & Hst).
  exists reads. split; [exact Hr|]. rewrite <- Hst. unfold try_catch.
  destruct (m st) as [[e|a] st1]; reflexivity.
Qed.

Lemma reads_only_readWhoisFile (filePath : string) : reads_only (readWhoisFile w filePath).
Proof.
  intros st. destruct (readWhoisFile_reads w filePath st) as (reads & Hst & Hr & _).
  exists reads. split; [|exact Hst].
  eapply Forall_impl; [exact Hr|]. intros e (c & _ & [->| ->]); exact I.
Qed.

Lemma path_outcome_rebase (kind : event -> Prop) (st : State) (reads : list event)
    (out : (exn + jsval) * State) :
  Forall is_read reads ->
  path_outcome w kind {| events := events st ++ reads; clock_reads := clock_reads st |} out ->
  path_outcome w kind st out.
Proof.
  intros Hr H. inversion H as [reads' e Hr' | reads' req e Hr' Hk Ha
                               | reads' req result e Hr' Hk Ha Hw
                               | reads' req result Hr' Hk Ha Hw]; subst;
    cbn [events clock_reads] in *; rewrite <- !app_assoc in *.
  - apply threw_before_request. now apply Forall_app.
  - rewrite app_assoc. rewrite <- app_assoc.
    apply (manager_threw w kind st (reads ++ reads')) in Ha; [|now apply Forall_app|exact Hk].
    now rewrite <- app_assoc in Ha.
  - pose proof (write_failed w kind st (reads ++ reads') req result e) as C.
    rewrite <- !app_assoc in C. apply C; [now apply Forall_app|assumption..].
  - pose proof (returned w kind st (reads ++ reads') req result) as C.
    rewrite <- !app_assoc in C. apply C; [now apply Forall_app|assumption..].
Qed.

Lemma path_shape_throw (kind : event -> Prop) (e : exn) : path_shape w kind (throw e).
Proof.
  intros st. unfold throw. rewrite (state_eta st) at 2.
  apply threw_before_request. constructor.
Qed.

Lemma path_shape_bind {A} (kind : event -> Prop) (m : M A) (k : A -> M jsval) :
  reads_only m -> (forall a, path_shape w kind (k a)) -> path_shape w kind (bind m k).
Proof.
  intros Hm Hk st. destruct (Hm st) as (reads & Hr & Hst). unfold bind.
  destruct (m st) as [[e|a] st1]; simpl in Hst; subst st1.
  - now apply threw_before_request.
  - apply (path_outcome_rebase kind st reads); [exact Hr | apply Hk].
Qed.

(** The end of a path: the request, then the result file. *)
Lemma path_shape_end (kind : event -> Prop) (req : event) (call : M jsval) :
  kind req ->
  (forall st, exists r, answer w req = Some r /\ call st = (r, log req st)) ->
  path_shape w kind (result <- call ;; writeResultFile w result ;;; ret result).
Proof.
  intros Hkind Hcall st. destruct (Hcall st) as (r & Ha & Hc).
  unfold bind at 1. rewrite Hc. destruct r as [e|result].
  - pose proof (manager_threw w kind st [] req e (List.Forall_nil is_read) Hkind Ha) as C.
    exact C.
  - unfold bind.
    pose proof (writeResultFile_run w result (log req st)) as Hw.
    cbv zeta in Hw. unfold stamped in Hw. cbn [events clock_reads log] in Hw. rewrite Hw.
    destruct (fs_writeFile w (events st ++ [req]) "dns-sync-result.json" _) as [e|] eqn:Hout.
    + pose proof (write_failed w kind st [] req result e (List.Forall_nil is_read) Hkind Ha) as C.
      simpl app in C. specialize (C Hout). rewrite <- app_assoc. exact C.
    + pose proof (returned w kind st [] req result (List.Forall_nil is_read) Hkind Ha) as C.
      simpl app in C. specialize (C Hout). unfold ret. rewrite <- app_assoc. exact C.
Qed.

Lemma path_shape_prMerge (title : string) (data : jsval) :
  path_shape w is_pr_request
    (result <- dnsManager_handlePRMerge w title data ;;
     writeResultFile w result ;;; ret result).
Proof.
  apply (path_shape_end is_pr_request (EvPRMerge title data)); [exact I|].
  intros st. eexists. split; reflexivity.
Qed.

Lemma path_shape_manualSync (title : string) (whoisData options : jsval) :
  path_shape w is_manual_request
    (result <- dnsManager_handleManualSync w title whoisData options ;;
     writeResultFile w result ;;; ret result).
Proof.
  apply (path_shape_end is_manual_request (EvManualSync title whoisData options)); [exact I|].
  intros st. eexists. split; reflexivity.
Qed.

End Shape.

Ltac reads_step :=
  first
    [ apply reads_only_ret
    | apply reads_only_throw
    | apply reads_only_lift
    | apply reads_only_readWhoisFile
    | apply reads_only_bind; [|intros ?]
    | apply reads_only_try_catch; [|intros ?]
    | match goal with
      | |- reads_only (if ?b then _ else _) => destruct b
      | |- reads_only (match ?x with _ => _ end) => destruct x
      end ].

Ltac shape_step :=
  first
    [ apply path_shape_throw
    | apply path_shape_prMerge
    | apply path_shape_manualSync
    | apply path_shape_bind; [repeat reads_step | intros ?]
    | match goal with
      | |- path_shape _ _ (if ?b then _ else _) => destruct b
      | |- path_shape _ _ (match ?x with _ => _ end) => destruct x
      end ].

Lemma handleManualTrigger_shape (w : World) :
  path_shape w is_manual_request (handleManualTrigger w).
Proof. unfold handleManualTrigger. cbv zeta. repeat shape_step. Qed.

Lemma handlePRMerge_shape (w : World) :
  path_shape w is_pr_request (handlePRMerge w).
Proof. unfold handlePRMerge. cbv zeta. repeat shape_step. Qed.

(** ** Sync orchestrator: every run *)

Lemma dispatched_reads (reads : list event) :
  Forall is_read reads -> dispatched reads = [].
Proof.
  induction 1 as [|e reads He _ IH]; [reflexivity|].
  unfold dispatched in *. destruct e; try contradiction; exact IH.
Qed.

Lemma persisted_reads (reads : list event) :
  Forall is_read reads -> persisted reads = [].
Proof.
  induction 1 as [|e reads He _ IH]; [reflexivity|].
  unfold persisted in *. destruct e; try contradiction; exact IH.
Qed.

Lemma dispatched_app (evs1 evs2 : list event) :
  dispatched (evs1 ++ evs2) = dispatched evs1 ++ dispatched evs2.
Proof. apply omap_app. Qed.

Lemma persisted_app (evs1 evs2 : list event) :
  persisted (evs1 ++ evs2) = persisted evs1 ++ persisted evs2.
Proof. apply omap_app. Qed.

Lemma answer_request (w : World) (req : event) (r : exn + jsval) :
  answer w req = Some r -> request req = Some req /\ written req = None.
Proof. destruct req; simpl; intros H; try discriminate; now split. Qed.

(** The path [handleSync] takes sends the requests of its trigger. *)
Lemma handleSync_path_shape (w : World) :
  path_shape w (trigger_request w)
    (if String.eqb (determineTriggerType w) "manual" then handleManualTrigger w
     else handlePRMerge w).
Proof.
  unfold determineTriggerType, trigger_request. cbv zeta.
  destruct (env_truthy (env w !! "MANUAL_DOMAIN") || env_truthy (env w !! "MANUAL_OPERATION")).
  - apply handleManualTrigger_shape.
  - apply handlePRMerge_shape.
Qed.

(** [handleSync] after its path: a returned result is passed on; an error
    is written as a failure record, and rethrown when that write is done. *)
Lemma handleSync_after_path (w : World) (st : State) :
  handleSync w st
  = match (if String.eqb (determineTriggerType w) "manual" then handleManualTrigger w
           else handlePRMerge w) st with
    | (inr result, st1) => (inr result, st1)
    | (inl error, st1) =>
        let record :=
          failure_record (now w (clock_reads st1)) error (determineTriggerType w) in
        match fs_writeFile w (events st1) "dns-sync-result.json" record with
        | None =>
            (inl error,
             {| events := events st1 ++ [EvWriteFile "dns-sync-result.json" record];
                clock_reads := S (S (clock_reads st1)) |})
        | Some e =>
            (inl e,
             {| events := events st1 ++ [EvWriteFailed "dns-sync-result.json" record];
                clock_reads := S (S (clock_reads st1)) |})
        end
    end.
Proof.
  unfold handleSync, try_catch. cbv zeta.
  destruct ((if String.eqb (determineTriggerType w) "manual" then handleManualTrigger w
             else handlePRMerge w) st) as [[error|result] st1]; [|reflexivity].
  unfold bind, toISOString_now, writeResultFile, try_catch, bind, toISOString_now,
    writeFile, throw, log.
  cbn [events clock_reads].
  change (VObj PlainObject (spread _ _))
    with (failure_record (now w (clock_reads st1)) error (determineTriggerType w)).
  destruct (fs_writeFile w (events st1) "dns-sync-result.json" _); reflexivity.
Qed.

(** X14. A run of [handleSync] sends at most one request to the DNS record
    manager, and only of the kind of its trigger: [handleManualSync] when
    [MANUAL_DOMAIN] or [MANUAL_OPERATION] is set, [handlePRMerge] otherwise,
    whatever [MANUAL_WHOIS_FILE] is. *)
Theorem handleSync_one_request (w : World) (st : State) :
  exists sent,
    dispatched (events (snd (handleSync w st))) = dispatched (events st) ++ sent
    /\ length sent <= 1
    /\ Forall (fun req =>
                 if env_truthy (env w !! "MANUAL_DOMAIN")
                    || env_truthy (env w !! "MANUAL_OPERATION")
                 then exists title whoisData options,
                        req = EvManualSync title whoisData options
                 else exists title data, req = EvPRMerge title data) sent.
Proof.
  assert (forall req, trigger_request w req ->
            if env_truthy (env w !! "MANUAL_DOMAIN")
               || env_truthy (env w !! "MANUAL_OPERATION")
            then exists title whoisData options, req = EvManualSync title whoisData options
            else exists title data, req = EvPRMerge title data) as Hkind.
  { intros req. unfold trigger_request.
    destruct (env_truthy (env w !! "MANUAL_DOMAIN")
              || env_truthy (env w !! "MANUAL_OPERATION"));
      destruct req; try contradiction; intros _; eauto. }
  rewrite handleSync_after_path.
  pose proof (handleSync_path_shape w st) as Hpath.
  inversion Hpath as [reads e Hr Hst | reads req e Hr Hk Ha Hst
                      | reads req result e Hr Hk Ha Hw Hst
                      | reads req result Hr Hk Ha Hw Hst];
    cbv zeta; cbn [events clock_reads];
    try (destruct (answer_request w req _ Ha) as [Hreq _]);
    [exists [] | exists [req] ..];
    try match goal with
        | |- context [fs_writeFile ?a ?b ?c ?d] => destruct (fs_writeFile a b c d)
        end;
    cbn [snd events];
    rewrite ?dispatched_app, ?(dispatched_reads reads Hr);
    unfold dispatched; simpl; rewrite ?Hreq; simpl; rewrite ?app_nil_r;
    (split; [reflexivity
            | split; [simpl; lia
                     | first [ constructor; [apply Hkind; exact Hk | constructor]
                             | constructor ]]]).
Qed.

(** A run that returns went through its path to the end. *)
Lemma handleSync_returned (w : World) (result : jsval) (st : State) :
  fst (handleSync w st) = inr result ->
  exists reads req,
    Forall is_read reads
    /\ trigger_request w req
    /\ answer w req = Some (inr result)
    /\ snd (handleSync w st)
       = {| events := events st ++ reads
                      ++ [req; EvWriteFile "dns-sync-result.json"
                                 (stamped (now w (clock_reads st)) result)];
            clock_reads := S (clock_reads st) |}.
Proof.
  rewrite handleSync_after_path.
  pose proof (handleSync_path_shape w st) as Hpath.
  inversion Hpath as [reads e Hr Hst | reads req e Hr Hk Ha Hst
                      | reads req result' e Hr Hk Ha Hw Hst
                      | reads req result' Hr Hk Ha Hw Hst];
    cbv zeta;
    try (match goal with |- context [fs_writeFile ?a ?b ?c ?d] =>
                           destruct (fs_writeFile a b c d) end; discriminate).
  cbn [fst snd]. intros [= ->]. exists reads, req. repeat split; assumption.
Qed.

(** X15. A run of [handleSync] that returns has read the file system,
    then sent one request of the kind of its trigger, then written the
    result file, and nothing else: it returns the answer of the DNS record
    manager, and the record written is that answer with the timestamp. *)
Theorem handleSync_returns (w : World) (result : jsval) (st : State) :
  fst (handleSync w st) = inr result ->
  exists reads req,
    Forall is_read reads
    /\ trigger_request w req
    /\ answer w req = Some (inr result)
    /\ snd (handleSync w st)
       = {| events := events st ++ reads
                      ++ [req; EvWriteFile "dns-sync-result.json"
                                 (stamped (now w (clock_reads st)) result)];
            clock_reads := S (clock_reads st) |}.
Proof. apply handleSync_returned. Qed.

Lemma handleSync_returns_witness :
  exists reads req,
    Forall is_read reads
    /\ trigger_request Examples.merged_removal req
    /\ answer Examples.merged_removal req = Some (inr (VObj PlainObject [("success", VBool true)]))
    /\ snd (handleSync Examples.merged_removal initial)
       = {| events := events initial ++ reads
                      ++ [req; EvWriteFile "dns-sync-result.json"
                                 (stamped (now Examples.merged_removal (clock_reads initial))
                                    (VObj PlainObject [("success", VBool true)]))];
            clock_reads := S (clock_reads initial) |}.
Proof.
  apply (handleSync_returns Examples.merged_removal
           (VObj PlainObject [("success", VBool true)]) initial).
  vm_compute. reflexivity.
Defined.

(** X16. When the DNS record manager throws on the request of a run, and
    the result file can be written, [handleSync] throws that same error, after
    it has persisted the failure record with its message. *)
Theorem handleSync_manager_failure (w : World) (req : event) (e : exn) (st : State) :
  (forall evs path data, fs_writeFile w evs path data = None) ->
  dispatched (events (snd (handleSync w st))) = dispatched (events st) ++ [req] ->
  answer w req = Some (inl e) ->
  fst (handleSync w st) = inl e
  /\ persisted (events (snd (handleSync w st)))
     = persisted (events st)
       ++ [failure_record (now w (clock_reads st)) e (determineTriggerType w)].
Proof.
  intros Hwritable. rewrite handleSync_after_path.
  pose proof (handleSync_path_shape w st) as Hpath.
  inversion Hpath as [reads e' Hr Hst | reads req' e' Hr Hk Ha Hst
                      | reads req' result e' Hr Hk Ha Hw Hst
                      | reads req' result Hr Hk Ha Hw Hst];
    cbv zeta; cbn [events clock_reads]; rewrite ?Hwritable; cbn [fst snd events];
    try (destruct (answer_request w req' _ Ha) as [Hreq Hwr]);
    rewrite ?dispatched_app, ?persisted_app, ?(dispatched_reads reads Hr),
      ?(persisted_reads reads Hr);
    unfold dispatched, persisted; simpl; rewrite ?Hreq, ?Hwr; simpl; rewrite ?app_nil_r;
    intros Hsent Hanswer.
  - apply (f_equal (@length event)) in Hsent. rewrite length_app in Hsent.
    simpl in Hsent. lia.
  - apply app_inv_head in Hsent. injection Hsent as ->.
    rewrite Hanswer in Ha. injection Ha as ->. split; reflexivity.
  - rewrite Hwritable in Hw. discriminate.
  - apply app_inv_head in Hsent. injection Hsent as ->.
    rewrite Hanswer in Ha. discriminate.
Qed.

Lemma handleSync_manager_failure_witness :
  let e := mkError "DNS provider unreachable" in
  let w := Scenarios.manager_down Examples.merged_removal e in
  fst (handleSync w initial) = inl e
  /\ persisted (events (snd (handleSync w initial)))
     = persisted (events initial)
       ++ [failure_record (now w (clock_reads initial)) e (determineTriggerType w)].
Proof.
  intros e w.
  apply (handleSync_manager_failure w
           (EvPRMerge "Remove example.no.kg"
              (VObj PlainObject [("domain", VStr "example"); ("sld", VStr "no.kg");
                                 ("operation", VStr "delete")])) e initial);
    [intros evs path data; reflexivity | vm_compute; reflexivity | reflexivity].
Defined.

(** X17. Run directly, the script exits with 0 exactly when [handleSync]
    returns, and with 1 when it throws; it does nothing after [handleSync].
    An exit code 0 therefore means that the DNS record manager answered one
    request and that its answer, whatever it says, is in the result file. *)
Theorem main_exit_code (w : World) (st : State) :
  exists code,
    main w st = (inr code, snd (handleSync w st))
    /\ (code = 0%Z \/ code = 1%Z)
    /\ (code = 0%Z <-> exists result, fst (handleSync w st) = inr result)
    /\ (code = 0%Z ->
        exists req result,
          answer w req = Some (inr result)
          /\ dispatched (events (snd (main w st))) = dispatched (events st) ++ [req]
          /\ persisted (events (snd (main w st)))
             = persisted (events st) ++ [stamped (now w (clock_reads st)) result]).
Proof.
  unfold main, try_catch, bind, ret.
  pose proof (handleSync_returned w) as Hret. specialize (fun r => Hret r st).
  destruct (handleSync w st) as [[e|result] st1]; cbn [fst snd] in *.
  - exists 1%Z. split; [reflexivity|]. split; [now right|]. split.
    + split; [discriminate | intros [r Hr]; discriminate].
    + discriminate.
  - exists 0%Z. split; [reflexivity|]. split; [now left|]. split.
    + split; [intros _; now exists result | reflexivity].
    + intros _. destruct (Hret result eq_refl) as (reads & req & Hr & _ & Ha & ->).
      destruct (answer_request w req _ Ha) as [Hreq Hwr].
      exists req, result. split; [exact Ha|]. cbn [events].
      rewrite !dispatched_app, !persisted_app, (dispatched_reads reads Hr),
        (persisted_reads reads Hr).
      unfold dispatched, persisted. simpl. rewrite Hreq, Hwr. split; reflexivity.
Qed.

Lemma mapOperationType_string_iff_witness :
  (exists s, mapOperationType "custom" = VStr s)
  /\ mapOperationType "toString" = VBuiltin "Object.prototype.toString".
Proof.
  split.
  - apply (proj1 (mapOperationType_string_iff "custom")). reflexivity.
  - apply (proj2 (mapOperationType_string_iff "toString")). reflexivity.
Defined.

Lemma main_exit_code_witness :
  fst (main Examples.manual_no_input initial) = inr 1%Z.
Proof.
  destruct (main_exit_code Examples.manual_no_input initial) as (code & Hmain & _ & Hiff & _).
  rewrite Hmain. simpl. f_equal.
  vm_compute in Hmain. now injection Hmain as <-.
Defined.

(** ** Sync orchestrator: the PR-merge path *)

(** X18. Without [MANUAL_DOMAIN] and [MANUAL_OPERATION] a run is a PR
    merge, also when [MANUAL_WHOIS_FILE] is set; without [PR_TITLE] it throws
    before it looks at anything, and [handleSync] persists the failure record
    with [triggerType] [pr_merge] where the result file can be written. *)
Theorem handleSync_missing_title (w : World) (st : State) :
  env_truthy (env w !! "MANUAL_DOMAIN") = false ->
  env_truthy (env w !! "MANUAL_OPERATION") = false ->
  env_truthy (env w !! "PR_TITLE") = false ->
  let error := mkError "PR_TITLE environment variable is required" in
  let record := failure_record (now w (clock_reads st)) error "pr_merge" in
  fs_writeFile w (events st) "dns-sync-result.json" record = None ->
  handlePRMerge w st = (inl error, st)
  /\ handleSync w st
     = (inl error,
        {| events := events st ++ [EvWriteFile "dns-sync-result.json" record];
           clock_reads := S (S (clock_reads st)) |}).
Proof.
  intros Hdomain Hoperation Htitle error record Hwrite.
  assert (handlePRMerge w st = (inl error, st)) as Hpr.
  { unfold handlePRMerge. cbv zeta. rewrite Htitle. reflexivity. }
  split; [exact Hpr|].
  rewrite handleSync_after_path.
  assert (determineTriggerType w = "pr_merge") as ->.
  { unfold determineTriggerType. cbv zeta. now rewrite Hdomain, Hoperation. }
  change (String.eqb "pr_merge" "manual") with false. cbv iota.
  rewrite Hpr. cbv zeta. fold error. fold record. now rewrite Hwrite.
Qed.

Lemma handleSync_missing_title_witness :
  handleSync Scenarios.merged_untitled initial
  = (inl (mkError "PR_TITLE environment variable is required"),
     {| events :=
          events initial
          ++ [EvWriteFile "dns-sync-result.json"
                (failure_record (now Scenarios.merged_untitled (clock_reads initial))
                   (mkError "PR_TITLE environment variable is required") "pr_merge")];
        clock_reads := S (S (clock_reads initial)) |}).
Proof.
  apply (proj2 (handleSync_missing_title Scenarios.merged_untitled initial
                  ltac:(vm_compute; reflexivity) ltac:(vm_compute; reflexivity)
                  ltac:(vm_compute; reflexivity) ltac:(vm_compute; reflexivity))).
Defined.

(** The start of [handlePRMerge] with a title: the change-set, then the
    extractor. *)
Lemma handlePRMerge_extracted (w : World) (title : string)
    (files : list ChangedFile) (file : ChangedFile) (st : State) :
  env w !! "PR_TITLE" = Some title -> title <> "" ->
  pr_files w = Some (inr files) ->
  extractWhoisFiles files = inr file ->
  handlePRMerge w st
  = (if String.eqb (status file) "removed" then
       match parseDomain (VStr (filename file)) with
       | inl e => throw e
       | inr {| domain := domainName; sld := sld |} =>
           whoisData <-
             (if env_truthy (env w !! "WHOIS_FILE_PATH") then
                try_catch
                  (whoisData <- readWhoisFile w (pr_extractedFilePath w file) ;;
                   whoisDomain <- lift (get_field whoisData "domain") ;;
                   ret whoisData)
                  (fun error => ret VNull)
              else ret VNull) ;;
           result <-
             dnsManager_handlePRMerge w title
               (VObj PlainObject
                  (spread [("domain", VStr domainName); ("sld", VStr sld);
                           ("operation", VStr "delete")]
                     (if truthy whoisData then [("originalData", whoisData)] else []))) ;;
           writeResultFile w result ;;; ret result
       end
     else
       whoisData <- readWhoisFile w (pr_filePath w file) ;;
       whoisData <-
         (if negb (String.eqb (env_or (env w !! "OPERATION") "auto") "auto") then
            lift (set_field whoisData "operation"
                    (mapOperationType (env_or (env w !! "OPERATION") "auto")))
          else ret whoisData) ;;
       result <- dnsManager_handlePRMerge w title whoisData ;;
       writeResultFile w result ;;; ret result) st.
Proof.
  intros Htitle Hne Hfiles Hextract.
  unfold handlePRMerge. rewrite Htitle, Hfiles, (env_truthy_Some title Hne).
  cbv zeta. cbn [negb].
  unfold bind at 1. unfold try_catch at 1. unfold lift at 1.
  unfold bind at 1. unfold lift at 1. rewrite Hextract. reflexivity.
Qed.

(** X19. With a title, [handlePRMerge] ends before any read or request
    when there is no descriptor to work on: an absent change-set file counts
    as an empty change-set; an error of reading or parsing it is wrapped in
    [Failed to read PR files]; an error of the extractor is thrown as it
    is. *)
Theorem handlePRMerge_no_descriptor (w : World) (title : string) (st : State) :
  env w !! "PR_TITLE" = Some title -> title <> "" ->
  (pr_files w = None ->
   handlePRMerge w st = (inl (mkError "No whois files found in PR changes"), st))
  /\ (forall e, pr_files w = Some (inl e) ->
                handlePRMerge w st
                = (inl (mkError ("Failed to read PR files: " +:+ message e)), st))
  /\ (forall files e, pr_files w = Some (inr files) ->
                      extractWhoisFiles files = inl e ->
                      handlePRMerge w st = (inl e, st)).
Proof.
  intros Htitle Hne.
  repeat split.
  - intros Hfiles. unfold handlePRMerge.
    rewrite Htitle, Hfiles, (env_truthy_Some title Hne). reflexivity.
  - intros e Hfiles. unfold handlePRMerge.
    rewrite Htitle, Hfiles, (env_truthy_Some title Hne). reflexivity.
  - intros files e Hfiles Hextract. unfold handlePRMerge.
    rewrite Htitle, Hfiles, (env_truthy_Some title Hne). cbv zeta. cbn [negb].
    unfold bind at 1. unfold try_catch at 1. unfold lift at 1.
    unfold bind at 1. unfold lift at 1. now rewrite Hextract.
Qed.

Lemma handlePRMerge_no_descriptor_witness :
  handlePRMerge Scenarios.merged_no_change_set initial
  = (inl (mkError "No whois files found in PR changes"), initial).
Proof.
  apply (proj1 (handlePRMerge_no_descriptor Scenarios.merged_no_change_set
                  "Add example.no.kg" initial
                  ltac:(vm_compute; reflexivity) ltac:(discriminate))).
  reflexivity.
Defined.

Lemma parseDomain_no_dot (s : string) :
  s <> "" -> has_char "." (cleanDomain s) = false ->
  parseDomain (VStr s)
  = inl (mkError ("Invalid domain format: " +:+ s +:+ ". Expected format: domain.sld")).
Proof.
  intros Hs Hdot. unfold parseDomain.
  assert (truthy (VStr s) = true) as ->.
  { simpl. destruct (String.eqb_spec s ""); [contradiction|reflexivity]. }
  simpl. now rewrite (split_no_sep "." _ Hdot).
Qed.

(** X20. A removed descriptor whose name has no dot is not deleted:
    [handlePRMerge] throws the format error of [parseDomain] on the file name
    before any read or request. *)
Theorem handlePRMerge_removed_unparsable (w : World) (title : string)
    (files : list ChangedFile) (file : ChangedFile) (st : State) :
  env w !! "PR_TITLE" = Some title -> title <> "" ->
  pr_files w = Some (inr files) ->
  extractWhoisFiles files = inr file ->
  status file = "removed" ->
  has_char "." (cleanDomain (filename file)) = false ->
  handlePRMerge w st
  = (inl (mkError ("Invalid domain format: " +:+ filename file
                   +:+ ". Expected format: domain.sld")), st).
Proof.
  intros Htitle Hne Hfiles Hextract Hstatus Hdot.
  rewrite (handlePRMerge_extracted w title files file st Htitle Hne Hfiles Hextract).
  rewrite Hstatus. change (String.eqb "removed" "removed") with true. cbv iota.
  rewrite parseDomain_no_dot; [reflexivity| |exact Hdot].
  intros Hempty. rewrite Hempty in Hdot.
  apply extractWhoisFiles_inv in Hextract.
  assert (In file (List.filter is_whois_file files)) as Hin by (rewrite Hextract; now left).
  apply filter_In in Hin as [_ Hw]. unfold is_whois_file in Hw.
  rewrite Hempty in Hw. discriminate.
Qed.

Lemma handlePRMerge_removed_unparsable_witness :
  handlePRMerge Scenarios.merged_removal_dotless initial
  = (inl (mkError ("Invalid domain format: " +:+ "whois/localhost.json"
                   +:+ ". Expected format: domain.sld")), initial).
Proof.
  apply (handlePRMerge_removed_unparsable Scenarios.merged_removal_dotless
           "Remove localhost"
           [ {| filename := "whois/localhost.json"; status := "removed" |} ]
           {| filename := "whois/localhost.json"; status := "removed" |} initial);
    [vm_compute; reflexivity | discriminate | reflexivity..].
Defined.

(** X21. For a descriptor file that was not removed, an error of
    [readWhoisFile] ends [handlePRMerge] as it is, not wrapped and without a
    request. *)
Theorem handlePRMerge_load_failure (w : World) (title : string)
    (files : list ChangedFile) (file : ChangedFile) (e : exn) (st st1 : State) :
  env w !! "PR_TITLE" = Some title -> title <> "" ->
  pr_files w = Some (inr files) ->
  extractWhoisFiles files = inr file ->
  status file <> "removed" ->
  readWhoisFile w (pr_filePath w file) st = (inl e, st1) ->
  handlePRMerge w st = (inl e, st1)
  /\ dispatched (events st1) = dispatched (events st).
Proof.
  intros Htitle Hne Hfiles Hextract Hstatus Hread.
  rewrite (handlePRMerge_extracted w title files file st Htitle Hne Hfiles Hextract).
  destruct (String.eqb_spec (status file) "removed") as [|_]; [contradiction|].
  unfold bind at 1. rewrite Hread. split; [reflexivity|].
  pose proof (readWhoisFile_dispatches_nothing w (pr_filePath w file) st) as H.
  now rewrite Hread in H.
Qed.

Lemma handlePRMerge_load_failure_witness :
  let w := Examples.runner [("PR_TITLE", "Add example.no.kg")] []
             (Some [ {| filename := "whois/example.no.kg.json"; status := "added" |} ]) true in
  fst (handlePRMerge w initial)
  = inl (mkError ("Failed to read whois file whois/example.no.kg.json: "
                  +:+ "Whois file not found at any path: whois/example.no.kg.json")).
Proof.
  intros w.
  pose proof (handlePRMerge_load_failure w "Add example.no.kg"
                [ {| filename := "whois/example.no.kg.json"; status := "added" |} ]
                {| filename := "whois/example.no.kg.json"; status := "added" |}
                (mkError ("Failed to read whois file whois/example.no.kg.json: "
                          +:+ "Whois file not found at any path: whois/example.no.kg.json"))
                initial
                (snd (readWhoisFile w "whois/example.no.kg.json" initial))
                ltac:(vm_compute; reflexivity) ltac:(discriminate) eq_refl eq_refl
                ltac:(discriminate) ltac:(vm_compute; reflexivity)) as [H _].
  now rewrite H.
Defined.

(** X22. A descriptor file that holds no object ([null], a number, a
    string, a boolean) is sent to the DNS record manager as it is when there
    is no operation override; with an override, setting [operation] on it
    throws a [TypeError] and no request is sent. *)
Theorem handlePRMerge_not_an_object (w : World) (title : string)
    (files : list ChangedFile) (file : ChangedFile) (data : jsval) (st st1 : State) :
  env w !! "PR_TITLE" = Some title -> title <> "" ->
  pr_files w = Some (inr files) ->
  extractWhoisFiles files = inr file ->
  status file <> "removed" ->
  readWhoisFile w (pr_filePath w file) st = (inr data, st1) ->
  (forall c props, data <> VObj c props) ->
  let operation := env_or (env w !! "OPERATION") "auto" in
  (operation = "auto" ->
   dispatched (events (snd (handlePRMerge w st)))
   = dispatched (events st) ++ [EvPRMerge title data])
  /\ (operation <> "auto" ->
      exists e, handlePRMerge w st = (inl e, st1) /\ exn_cls e = ClsTypeError
                /\ dispatched (events st1) = dispatched (events st)).
Proof.
  intros Htitle Hne Hfiles Hextract Hstatus Hread Hdata operation.
  rewrite (handlePRMerge_extracted w title files file st Htitle Hne Hfiles Hextract).
  destruct (String.eqb_spec (status file) "removed") as [|_]; [contradiction|].
  pose proof (readWhoisFile_dispatches_nothing w (pr_filePath w file) st) as Hsame.
  rewrite Hread in Hsame. simpl snd in Hsame.
  fold operation.
  split.
  - intros Hauto. unfold bind at 1. rewrite Hread, Hauto.
    change (negb (String.eqb "auto" "auto")) with false. cbv iota.
    unfold bind at 1, ret at 1. rewrite prMerge_then_write.
    unfold dispatched. now rewrite Hsame.
  - intros Hop. unfold bind at 1. rewrite Hread.
    destruct (String.eqb_spec operation "auto") as [|_]; [contradiction|].
    cbn [negb]. unfold bind at 1, lift at 1.
    destruct data as [| |b|n|s|c props|name]; cbn [set_field];
      try (eexists; split; [reflexivity | split; [reflexivity | exact Hsame]]).
    now destruct (Hdata c props).
Qed.

Lemma handlePRMerge_not_an_object_witness :
  exists e,
    handlePRMerge Scenarios.merged_null_descriptor initial
    = (inl e, snd (readWhoisFile Scenarios.merged_null_descriptor
                     "whois/example.no.kg.json" initial))
    /\ exn_cls e = ClsTypeError
    /\ dispatched (events (snd (readWhoisFile Scenarios.merged_null_descriptor
                                  "whois/example.no.kg.json" initial)))
       = dispatched (events initial).
Proof.
  apply (proj2 (handlePRMerge_not_an_object Scenarios.merged_null_descriptor
                  "Add example.no.kg"
                  [ {| filename := "whois/example.no.kg.json"; status := "added" |} ]
                  {| filename := "whois/example.no.kg.json"; status := "added" |}
                  VNull initial
                  (snd (readWhoisFile Scenarios.merged_null_descriptor
                          "whois/example.no.kg.json" initial))
                  ltac:(vm_compute; reflexivity) ltac:(discriminate) eq_refl eq_refl
                  ltac:(discriminate) ltac:(vm_compute; reflexivity)
                  ltac:(discriminate))).
  vm_compute. discriminate.
Defined.

(** ** Sync orchestrator: the manual path *)




(** X24. A forced manual trigger that names a descriptor file but no
    domain, and whose file cannot be read, still calls the DNS record
    manager: with [null] for the descriptor. *)
Theorem handleManualTrigger_null_descriptor (w : World) (e : exn) (st st1 : State) :
  env_truthy (env w !! "MANUAL_DOMAIN") = false ->
  env_truthy (env w !! "MANUAL_WHOIS_FILE") = true ->
  env w !! "FORCE_SYNC" = Some "true" ->
  readWhoisFile w (manual_fullPath w) st = (inl e, st1) ->
  let operation := env_or (env w !! "MANUAL_OPERATION") "auto" in
  let options :=
    VObj PlainObject
      [("operation", mapOperationType operation);
       ("forceSync", VBool true);
       ("triggeredBy", VStr (env_or (env w !! "GITHUB_ACTOR") "unknown"))] in
  handleManualTrigger w st
  = (result <- dnsManager_handleManualSync w
                 (env_or (env w !! "PR_TITLE") "Manual DNS Sync") VNull options ;;
     writeResultFile w result ;;; ret result) st1.
Proof.
  intros Hdomain HwhoisFile Hforce Hread operation options.
  unfold handleManualTrigger. cbv zeta. rewrite Hdomain, HwhoisFile, Hforce.
  rewrite bool_decide_eq_true_2 by reflexivity. cbn [negb andb].
  unfold bind at 1. unfold try_catch at 1. unfold bind at 1. rewrite Hread.
  unfold ret at 1. unfold bind at 1. unfold ret at 1.
  unfold bind at 1. cbn [truthy negb andb]. unfold ret at 1.
  reflexivity.
Qed.

Lemma handleManualTrigger_null_descriptor_witness :
  dispatched (events (snd (handleManualTrigger Scenarios.manual_file_missing_forced initial)))
  = [EvManualSync "Manual DNS Sync" VNull
       (VObj PlainObject [("operation", VStr "registration"); ("forceSync", VBool true);
                          ("triggeredBy", VStr "unknown")])].
Proof.
  rewrite (handleManualTrigger_null_descriptor Scenarios.manual_file_missing_forced
             (mkError ("Failed to read whois file whois/example.no.kg.json: "
                       +:+ "Whois file not found at any path: whois/example.no.kg.json"))
             initial
             (snd (readWhoisFile Scenarios.manual_file_missing_forced
                     "whois/example.no.kg.json" initial))
             ltac:(vm_compute; reflexivity) ltac:(vm_compute; reflexivity)
             ltac:(vm_compute; reflexivity) ltac:(vm_compute; reflexivity)).
  vm_compute. reflexivity.
Defined.

(** X25. Without force sync, the first descriptor read that fails ends a
    manual trigger, with the error of the read wrapped in a message that
    names the file or the domain; nothing is read after it and no request is
    sent. *)
Theorem handleManualTrigger_not_forced (w : World) (e : exn) (st st1 : State) :
  env w !! "FORCE_SYNC" <> Some "true" ->
  (env_truthy (env w !! "MANUAL_WHOIS_FILE") = true ->
   readWhoisFile w (manual_fullPath w) st = (inl e, st1) ->
   handleManualTrigger w st
   = (inl (mkError ("Failed to read WHOIS file " +:+ manual_fullPath w +:+ ": "
                    +:+ message e)), st1))
  /\ (forall manualDomain,
        env_truthy (env w !! "MANUAL_WHOIS_FILE") = false ->
        env w !! "MANUAL_DOMAIN" = Some manualDomain -> manualDomain <> "" ->
        readWhoisFile w (manual_domainFile w) st = (inl e, st1) ->
        handleManualTrigger w st
        = (inl (mkError ("Failed to read WHOIS file for domain " +:+ manualDomain +:+ ": "
                         +:+ message e)), st1)).
Proof.
  intros Hforce. split.
  - intros HwhoisFile Hread.
    unfold handleManualTrigger. cbv zeta. rewrite HwhoisFile.
    rewrite andb_false_r.
    rewrite bool_decide_eq_false_2 by exact Hforce.
    unfold bind at 1. unfold try_catch at 1. unfold bind at 1. rewrite Hread.
    reflexivity.
  - intros manualDomain HwhoisFile Hdomain Hne Hread.
    unfold handleManualTrigger. cbv zeta.
    rewrite HwhoisFile, Hdomain, (env_truthy_Some _ Hne).
    rewrite bool_decide_eq_false_2 by exact Hforce. cbn [negb andb].
    unfold bind at 1. unfold ret at 1. cbn [truthy negb andb].
    unfold bind at 1. unfold try_catch at 1. rewrite Hread.
    reflexivity.
Qed.

Lemma handleManualTrigger_not_forced_witness :
  handleManualTrigger Scenarios.manual_domain_missing initial
  = (inl (mkError ("Failed to read WHOIS file for domain " +:+ "example.no.kg" +:+ ": "
                   +:+ message
                         (mkError ("Failed to read whois file whois/example.no.kg.json: "
                                   +:+ "Whois file not found at any path: "
                                   +:+ "whois/example.no.kg.json")))),
     snd (readWhoisFile Scenarios.manual_domain_missing "whois/example.no.kg.json" initial)).
Proof.
  apply (proj2 (handleManualTrigger_not_forced Scenarios.manual_domain_missing
                  (mkError ("Failed to read whois file whois/example.no.kg.json: "
                            +:+ "Whois file not found at any path: "
                            +:+ "whois/example.no.kg.json"))
                  initial
                  (snd (readWhoisFile Scenarios.manual_domain_missing
                          "whois/example.no.kg.json" initial))
                  ltac:(vm_compute; discriminate))
           "example.no.kg");
    [vm_compute; reflexivity | vm_compute; reflexivity | discriminate
    | vm_compute; reflexivity].
Defined.
